(** * School enrollment statistics: a model of [school_data.py]

    The script loads per-school, per-year enrollment counts for grades 10
    to 12, builds a dense table indexed by (year, school, grade), asks for a
    school by code or by name, and prints statistics for that school and for
    all schools.

    Conventions of the model.
    - The [DataFrame] returned by [pd.read_csv] is a list of rows; CSV
      parsing itself is outside the model.
    - A cell of the [float32] table holds an enrollment count or NaN: it is
      an [option Z], [None] standing for NaN.  [float32] holds every
      integer up to 2^24 in absolute value and adds such integers without
      rounding as long as the sum stays in that range; the statements that
      equate a cell with a count of the file, or a statistic with a sum of
      counts, carry this bound as a hypothesis ([float32_count],
      [float32_sum], [float32_exact]).  Means and medians are kept as exact
      rationals.
    - A Python [str] is a [string] whose characters are the code points
      U+0000 to U+00FF.
    - Standard output is the list of the texts written, in order; an
      exception is a value of [exn]. *)

From Stdlib Require Import ZArith QArith Ascii String.
From stdpp Require Import base list strings sorting pretty.

Close Scope Q_scope.
#[local] Set Warnings "-clear-no-such-hyp".

(** ** Data model *)

(** A float of the table: a count, or [None] for NaN. *)
Abbreviation cell := (option Z) (only parsing).

Definition NaN : cell := None.

(** One line of the CSV file, with the columns the script reads. *)
Record row : Type := Row {
  School_Year : Z;
  School_Code : Z;
  School_Name : string;
  Grade_10 : cell;
  Grade_11 : cell;
  Grade_12 : cell
}.

Abbreviation DataFrame := (list row) (only parsing).

(** The three-axis array [data[year][school][grade]]. *)
Abbreviation ndarray3 := (list (list (list cell))) (only parsing).

(** A Python [dict] from school code to school name: keys are unique and
    keep the order of their first insertion. *)
Abbreviation dict := (list (Z * string)) (only parsing).

(** ** Library functions used by the loader *)

(** [Series.unique()] and [DataFrame.drop_duplicates()]: the distinct
    values in order of first appearance. *)
Fixpoint unique `{EqDecision A} (l : list A) : list A :=
  match l with
  | [] => []
  | x :: l => x :: filter (λ y, y ≠ x) (unique l)
  end.

(** [sorted(...)] on integers. *)
Definition sorted (l : list Z) : list Z := merge_sort Z.le l.

(** [d[k] = v]: an existing key keeps its position. *)
Fixpoint dict_setitem (k : Z) (v : string) (d : dict) : dict :=
  match d with
  | [] => [(k, v)]
  | (k', v') :: d =>
      if decide (k' = k) then (k, v) :: d else (k', v') :: dict_setitem k v d
  end.

(** [Series.to_dict()]: later entries of a repeated index overwrite. *)
Definition to_dict (pairs : list (Z * string)) : dict :=
  foldl (λ d kv, dict_setitem kv.1 kv.2 d) [] pairs.

Definition dict_keys (d : dict) : list Z := d.*1.
Definition dict_values (d : dict) : list string := d.*2.

Fixpoint dict_getitem (k : Z) (d : dict) : option string :=
  match d with
  | [] => None
  | (k', v) :: d => if decide (k' = k) then Some v else dict_getitem k d
  end.

(** [for i, x in enumerate(l): s = body i x s], counting from [i]. *)
Fixpoint for_enumerate {A St} (body : nat → A → St → St)
    (i : nat) (l : list A) (s : St) : St :=
  match l with
  | [] => s
  | x :: l => for_enumerate body (S i) l (body i x s)
  end.

(** [np.empty((n0, n1, n2))] followed by [fill(np.nan)]. *)
Definition full_nan (n0 n1 n2 : nat) : ndarray3 :=
  replicate n0 (replicate n1 (replicate n2 NaN)).

(** [data[i, j, :] = v]. *)
Definition setitem2 (i j : nat) (v : list cell) (data : ndarray3) : ndarray3 :=
  alter (λ plane, <[j := v]> plane) i data.

Definition getitem2 (data : ndarray3) (i j : nat) : option (list cell) :=
  data !! i ≫= λ plane, plane !! j.

(** ** The loader, [load_school_data] *)

(** [df[(df['School Year'] == year) & (df['School Code'] == code)]]. *)
Definition select_rows (df : DataFrame) (year code : Z) : DataFrame :=
  filter (λ r, School_Year r = year ∧ School_Code r = code) df.

(** [r[['Grade 10', 'Grade 11', 'Grade 12']]]. *)
Definition grades (r : row) : list cell := [Grade_10 r; Grade_11 r; Grade_12 r].

Definition school_codes_of (df : DataFrame) : list Z :=
  sorted (unique (School_Code <$> df)).

Definition school_names_of (df : DataFrame) : dict :=
  to_dict (unique ((λ r, (School_Code r, School_Name r)) <$> df)).

Definition years_of (df : DataFrame) : list Z :=
  sorted (unique (School_Year <$> df)).

(** Body of the inner loop (lines 30 to 32).  The assignment converts the
    counts of the row to [float32], which leaves a count of 2^24 at most in
    absolute value as it is; it rounds larger counts, which are outside the
    model: the statements that compare a cell with a count of the source
    are about counts in that range. *)
Definition fill_cell (df : DataFrame) (i : nat) (year : Z)
    (j : nat) (code : Z) (data : ndarray3) : ndarray3 :=
  match select_rows df year code with
  | [] => data
  | r :: _ => setitem2 i j (grades r) data
  end.

(** Body of the outer loop (lines 29 to 32). *)
Definition fill_year (df : DataFrame) (school_codes : list Z)
    (i : nat) (year : Z) (data : ndarray3) : ndarray3 :=
  for_enumerate (fill_cell df i year) 0 school_codes data.

Definition load_school_data (df : DataFrame) : ndarray3 * list Z * dict :=
  let school_codes := school_codes_of df in
  let school_names := school_names_of df in
  let years := years_of df in
  let data := full_nan (length years) (length school_codes) 3 in
  let data := for_enumerate (fill_year df school_codes) 0 years data in
  (data, school_codes, school_names).

(** ** Output and exceptions *)

Inductive exn : Type :=
  | ValueError (msg : string)
  | IndexError
  | KeyError
  | UnboundLocalError (name : string).

(** A run writes some texts and then returns a value or raises. *)
Definition M (A : Type) : Type := list string * (exn + A).

#[global] Instance M_ret : MRet M := λ A x, ([], inr x).

#[global] Instance M_bind : MBind M := λ A B f m,
  match m with
  | (out, inl e) => (out, inl e)
  | (out, inr x) => let '(out', r) := f x in (out ++ out', r)
  end.

Definition raise {A} (e : exn) : M A := ([], inl e).

Definition print (s : string) : M unit := ([s], inr tt).

(** [input(prompt)]: the prompt is written, the line read is given by the
    caller. *)
Definition input (prompt line : string) : M string := ([prompt], inr line).

(** [try: m except ValueError as e: handler e]. *)
Definition try_except_ValueError (m : M unit) (handler : string → M unit) : M unit :=
  match m with
  | (out, inl (ValueError msg)) =>
      let '(out', r) := handler msg in (out ++ out', r)
  | _ => m
  end.

(** An [option] whose [None] raises [e]. *)
Definition or_raise {A} (e : exn) (o : option A) : M A :=
  match o with
  | Some x => mret x
  | None => raise e
  end.

(** [for x in l: body x]. *)
Fixpoint for_in {A} (l : list A) (body : A → M unit) : M unit :=
  match l with
  | [] => mret tt
  | x :: l => body x ;; for_in l body
  end.

Definition LF : string := String (Ascii.ascii_of_nat 10) "".

(** ** NumPy reductions *)

(** A computed float: an exact rational, or [None] for NaN. *)
Abbreviation float := (option Q) (only parsing).

Definition to_float (c : cell) : float := inject_Z <$> c.

(** The sum of integers.  It is the [float32] sum of the script when the
    values are such that no partial sum, in whatever order, leaves the
    integers up to 2^24 in absolute value; the statements that equate a
    statistic with a sum of counts are about such values. *)
Definition np_sum (l : list Z) : Z := foldr Z.add 0%Z l.

(** [_replace_nan(a, 0)]. *)
Definition replace_nan (l : list cell) : list Z := default 0%Z <$> l.

(** [np.sum(~np.isnan(a))]. *)
Definition count_not_nan (l : list cell) : nat :=
  length (filter (λ c : cell, c ≠ None) l).

(** [np.nansum]: NaN is replaced by zero, then everything is added. *)
Definition nansum (l : list cell) : Z := np_sum (replace_nan l).

(** [np.nanmean]: the sum with NaN replaced by zero, over the number of
    cells that are not NaN; NaN (with a warning) when there are none. *)
Definition nanmean (l : list cell) : float :=
  match count_not_nan l with
  | O => None
  | S n => Some (Qmake (nansum l) (Pos.of_succ_nat n))
  end.

(** [np.fmax] and [np.fmin]: a NaN operand is ignored. *)
Definition fmax (a b : cell) : cell :=
  match a, b with
  | Some x, Some y => Some (Z.max x y)
  | Some x, None => Some x
  | None, _ => b
  end.

Definition fmin (a b : cell) : cell :=
  match a, b with
  | Some x, Some y => Some (Z.min x y)
  | Some x, None => Some x
  | None, _ => b
  end.

Definition zero_size (op : string) : exn :=
  ValueError ("zero-size array to reduction operation " +:+ op +:+
              " which has no identity").

(** [np.nanmax] and [np.nanmin] of the flattened array: [fmax.reduce],
    which has no identity. *)
Definition nanmax (l : list cell) : M cell :=
  match l with
  | [] => raise (zero_size "fmax")
  | c :: l => mret (foldl fmax c l)
  end.

Definition nanmin (l : list cell) : M cell :=
  match l with
  | [] => raise (zero_size "fmin")
  | c :: l => mret (foldl fmin c l)
  end.

(** [np.median] of values without NaN: the middle of the sorted values, or
    the mean of the two middle ones; NaN for no value. *)
Definition median (l : list Z) : float :=
  let s := sorted l in
  let n := length s in
  if Nat.even n then
    a ← s !! (n / 2 - 1); b ← s !! (n / 2); Some (Qmake (a + b) 2)
  else
    inject_Z <$> s !! (n / 2).

(** [int(x)] for a float: truncation towards zero; NaN is refused.  The
    floats of the model are finite: an infinite one, which [int] refuses
    with [OverflowError], takes counts beyond the range of [float32]. *)
Definition py_int (x : float) : M Z :=
  match x with
  | Some q => mret (Qnum q ÷ Zpos (Qden q))%Z
  | None => raise (ValueError "cannot convert float NaN to integer")
  end.

(** [x.astype(int)] for a float scalar: truncation; NaN gives the least
    64-bit integer (with a warning). *)
Definition astype_int (x : float) : Z :=
  match x with
  | Some q => (Qnum q ÷ Zpos (Qden q))%Z
  | None => (- 2 ^ 63)%Z
  end.

(** [a[a > 500]] on the flattened array: NaN compares false. *)
Definition greater_than (bound : Z) (l : list cell) : list Z :=
  filter (λ v, bound < v)%Z (omap id l).

(** ** The per-school reporter, [print_school_statistics] *)

(** [data[:, school_idx, :]]: [None] stands for [IndexError].  A table
    without years is loaded from a source without rows and has no school
    either: every index is out of range there. *)
Definition slice_school (data : ndarray3) (school_idx : nat)
  : option (list (list cell)) :=
  match data with
  | [] => None
  | _ :: _ => mapM (λ plane : list (list cell), plane !! school_idx) data
  end.

(** Column [g] of a two-axis array; a missing entry reads as NaN. *)
Definition column (g : nat) (a : list (list cell)) : list cell :=
  (λ cs : list cell, mjoin (cs !! g)) <$> a.

Record school_statistics : Type := SchoolStatistics {
  mean_enrollments : list float;
  max_enrollment : cell;
  min_enrollment : cell;
  total_enrollment_per_year : list Z;
  total_ten_year : Z;
  mean_yearly : float;
  large_classes : list Z;
  median_large_classes : option float
}.

(** Lines 45, 48, 49, 50, 53 and 54. *)
Definition mean_enrollments_of (school_data : list (list cell)) : list float :=
  (λ g, nanmean (column g school_data)) <$> seq 0 3.

Definition total_enrollment_per_year_of (school_data : list (list cell)) : list Z :=
  nansum <$> school_data.

Definition total_ten_year_of (school_data : list (list cell)) : Z :=
  nansum (Some <$> total_enrollment_per_year_of school_data).

Definition mean_yearly_of (school_data : list (list cell)) : float :=
  nanmean (Some <$> total_enrollment_per_year_of school_data).

Definition large_classes_of (school_data : list (list cell)) : list Z :=
  greater_than 500 (concat school_data).

Definition median_large_classes_of (school_data : list (list cell)) : option float :=
  let large_classes := large_classes_of school_data in
  if decide (0 < length large_classes) then Some (median large_classes) else None.

(** Lines 44 to 54: everything is computed before anything is printed. *)
Definition compute_school_statistics (data : ndarray3) (school_idx : nat)
  : M school_statistics :=
  school_data ← or_raise IndexError (slice_school data school_idx);
  max_enrollment ← nanmax (concat school_data);
  min_enrollment ← nanmin (concat school_data);
  mret {| mean_enrollments := mean_enrollments_of school_data;
          max_enrollment := max_enrollment;
          min_enrollment := min_enrollment;
          total_enrollment_per_year := total_enrollment_per_year_of school_data;
          total_ten_year := total_ten_year_of school_data;
          mean_yearly := mean_yearly_of school_data;
          large_classes := large_classes_of school_data;
          median_large_classes := median_large_classes_of school_data |}.

Definition print_mean_enrollment (st : school_statistics) (g : nat) : M unit :=
  m ← or_raise IndexError (mean_enrollments st !! g);
  v ← py_int m;
  print ("Mean Enrollment for Grade " +:+ pretty (10 + g) +:+ ": " +:+ pretty v).

Definition print_total_enrollment (st : school_statistics) (i : nat) : M unit :=
  t ← or_raise IndexError (total_enrollment_per_year st !! i);
  print ("  Total enrollment for " +:+ pretty (2013 + i) +:+ ": " +:+ pretty t).

Definition print_median_large_classes (st : school_statistics) : M unit :=
  match median_large_classes st with
  | Some m =>
      v ← py_int m;
      print ("For all enrollments over 500, the median value was: " +:+ pretty v)
  | None => print "No enrollments over 500"
  end.

(** Lines 57 to 70. *)
Definition print_school_report (st : school_statistics)
    (school_name : string) (school_code : Z) : M unit :=
  print (LF +:+ "School Name: " +:+ school_name +:+
         ", School Code: " +:+ pretty school_code) ;;
  print_mean_enrollment st 0 ;;
  print_mean_enrollment st 1 ;;
  print_mean_enrollment st 2 ;;
  (v ← py_int (to_float (max_enrollment st));
   print ("Highest Enrollment for a single Grade: " +:+ pretty v)) ;;
  (v ← py_int (to_float (min_enrollment st));
   print ("Lowest Enrollment for a single Grade: " +:+ pretty v)) ;;
  for_in (seq 0 10) (print_total_enrollment st) ;;
  print ("Total Ten Year Enrollment: " +:+ pretty (total_ten_year st)) ;;
  (v ← py_int (mean_yearly st);
   print ("Mean Total Yearly Enrollment Over 10 Years: " +:+ pretty v)) ;;
  print_median_large_classes st.

Definition print_school_statistics (data : ndarray3) (school_idx : nat)
    (school_name : string) (school_code : Z) : M unit :=
  st ← compute_school_statistics data school_idx;
  print_school_report st school_name school_code.

(** ** The aggregate reporter, [print_general_statistics] *)

Record general_statistics : Type := GeneralStatistics {
  mean_first_year : float;
  mean_last_year : float;
  total_grads_last_year : Z;
  max_enrollment_all : cell;
  min_enrollment_all : cell
}.

(** [data[-1, :, 2]]: the grade-12 cell of every school in the last year. *)
Definition last_year_grade_12 (data : ndarray3) : option (list cell) :=
  plane ← last data; mapM (λ cs : list cell, cs !! 2) plane.

(** Lines 77 to 85. *)
Definition compute_general_statistics (data : ndarray3) : M general_statistics :=
  first_year ← or_raise IndexError (head data);
  last_year ← or_raise IndexError (last data);
  grade_12 ← or_raise IndexError (last_year_grade_12 data);
  max_enrollment ← nanmax (concat (concat data));
  min_enrollment ← nanmin (concat (concat data));
  mret {| mean_first_year := nanmean (concat first_year);
          mean_last_year := nanmean (concat last_year);
          total_grads_last_year := nansum grade_12;
          max_enrollment_all := max_enrollment;
          min_enrollment_all := min_enrollment |}.

(** Lines 88 to 92. *)
Definition print_general_report (st : general_statistics) : M unit :=
  print ("Mean Enrollment in 2013: " +:+ pretty (astype_int (mean_first_year st))) ;;
  print ("Mean Enrollment in 2022: " +:+ pretty (astype_int (mean_last_year st))) ;;
  print ("Total Graduating Class of 2022: " +:+ pretty (total_grads_last_year st)) ;;
  (v ← py_int (to_float (max_enrollment_all st));
   print ("Highest Enrollment for a Single Grade: " +:+ pretty v)) ;;
  (v ← py_int (to_float (min_enrollment_all st));
   print ("Lowest Enrollment for a Single Grade: " +:+ pretty v)).

Definition print_general_statistics (data : ndarray3) : M unit :=
  st ← compute_general_statistics data;
  print_general_report st.

(** ** The selector and [main] *)

(** Characters 0 to 9. *)
Definition is_decimal (c : ascii) : bool :=
  (48 <=? Ascii.nat_of_ascii c) && (Ascii.nat_of_ascii c <=? 57).

(** Characters that [str.isdigit] accepts: below U+0100 these are the
    decimal digits and the superscripts two, three and one (U+00B2, U+00B3
    and U+00B9). *)
Definition is_digit (c : ascii) : bool :=
  is_decimal c
  || bool_decide (Ascii.nat_of_ascii c ∈ [178; 179; 185]).

Fixpoint all_chars (p : ascii → bool) (s : string) : bool :=
  match s with
  | EmptyString => true
  | String c s => p c && all_chars p s
  end.

(** [s.isdigit()]: at least one character, and only digits. *)
Definition isdigit (s : string) : bool :=
  match s with
  | EmptyString => false
  | _ => all_chars is_digit s
  end.

Fixpoint decimal_value (acc : Z) (s : string) : Z :=
  match s with
  | EmptyString => acc
  | String c s => decimal_value (10 * acc + (Z.of_nat (Ascii.nat_of_ascii c) - 48)) s
  end.

(** [int(s)] for a string on which [isdigit] holds (so without sign, blank
    or underscore): its value when every character is a decimal digit, and
    a [ValueError] otherwise.  Recent interpreters convert 4300 digits at
    most, and raise a [ValueError] of their own on a longer [s]: this cap
    is left out, and the statements about codes that are not found and
    about leading zeros bound the length of the input. *)
Definition int_of_str (s : string) : M Z :=
  if all_chars is_decimal s then mret (decimal_value 0 s)
  else raise (ValueError ("invalid literal for int() with base 10: '" +:+ s +:+ "'")).

(** [l.index(x)]. *)
Fixpoint list_index `{EqDecision A} (x : A) (l : list A) : option nat :=
  match l with
  | [] => None
  | y :: l => if decide (y = x) then Some 0 else S <$> list_index x l
  end.

Definition not_in_list (what : string) : exn :=
  ValueError (what +:+ " is not in list").

(** The local variables of [main] that the selector assigns; [None] is an
    unbound variable. *)
Record locals : Type := Locals {
  school_idx : option nat;
  school_name : option string;
  school_code : option Z
}.

(** Reading a local variable. *)
Definition load_fast {A} (name : string) (v : option A) : M A :=
  or_raise (UnboundLocalError name) v.

(** Lines 108 to 114: the input is a school code. *)
Definition select_by_code (school_codes : list Z) (school_names : dict)
    (school_input : string) : M locals :=
  school_input ← int_of_str school_input;
  if decide (school_input ∈ school_codes) then
    school_idx ← or_raise (not_in_list (pretty school_input))
                          (list_index school_input school_codes);
    school_name ← or_raise KeyError (dict_getitem school_input school_names);
    mret {| school_idx := Some school_idx;
            school_name := Some school_name;
            school_code := None |}
  else raise (ValueError "School code not found.").

(** Lines 115 to 122: the input is a school name. *)
Definition select_by_name (school_codes : list Z) (school_names : dict)
    (school_input : string) : M locals :=
  if decide (school_input ∈ dict_values school_names) then
    i ← or_raise (not_in_list ("'" +:+ school_input +:+ "'"))
                 (list_index school_input (dict_values school_names));
    school_code ← or_raise IndexError (dict_keys school_names !! i);
    school_idx ← or_raise (not_in_list (pretty school_code))
                          (list_index school_code school_codes);
    mret {| school_idx := Some school_idx;
            school_name := Some school_input;
            school_code := Some school_code |}
  else raise (ValueError "School name not found.").

(** Lines 108 to 122. *)
Definition select_school (school_codes : list Z) (school_names : dict)
    (school_input : string) : M locals :=
  if isdigit school_input
  then select_by_code school_codes school_names school_input
  else select_by_name school_codes school_names school_input.

(** Lines 123 to 128, with the variables left by the selector. *)
Definition report (data : ndarray3) (vars : locals) : M unit :=
  print (LF +:+ "***Requested School Statistics***" +:+ LF) ;;
  (school_idx ← load_fast "school_idx" (school_idx vars);
   school_name ← load_fast "school_name" (school_name vars);
   school_code ← load_fast "school_code" (school_code vars);
   print_school_statistics data school_idx school_name school_code) ;;
  print (LF +:+ "***General Statistics for All Schools***" +:+ LF) ;;
  print_general_statistics data.

(** Lines 101 to 103.  The ten arrays of [given_data] hold 60 values each,
    so that the array built from them has shape (10, 20, 3). *)
Definition print_header : M unit :=
  print "ENSF 692 School Enrollment Statistics" ;;
  print "Shape of full data array:  (10, 20, 3)" ;;
  print "Dimensions of full data array:  3".

(** [main], given the content of the CSV file and the line typed. *)
Definition main (df : DataFrame) (line : string) : M unit :=
  print_header ;;
  let '(data, school_codes, school_names) := load_school_data df in
  school_input ← input "Please enter the high school name or school code: " line;
  try_except_ValueError
    (vars ← select_school school_codes school_names school_input;
     report data vars)
    print.

(** ** Words of the specification *)

(** The spec's "parses as an integer", as far as the statements below need
    it: an optional sign followed by one or more decimal digits. *)
Definition parses_as_integer (s : string) : option Z :=
  match s with
  | String "-" t =>
      if isdigit t && all_chars is_decimal t then Some (- decimal_value 0 t)%Z else None
  | String "+" t =>
      if isdigit t && all_chars is_decimal t then Some (decimal_value 0 t) else None
  | _ =>
      if isdigit s && all_chars is_decimal s then Some (decimal_value 0 s) else None
  end.

(** ** Vocabulary of the statements *)

(** What the inner loop leaves in one entry of the table. *)
Definition filled (df : DataFrame) (year code : Z) (old : list cell) : list cell :=
  match select_rows df year code with
  | [] => old
  | r :: _ => grades r
  end.

Definition shape3 (n0 n1 n2 : nat) (data : ndarray3) : Prop :=
  length data = n0 ∧
  Forall (λ plane : list (list cell),
            length plane = n1 ∧ Forall (λ cs, length cs = n2) plane) data.

(** The values of the cells that are not NaN. *)
Definition values (l : list cell) : list Z := omap id l.

(** The values that are not missing among the cells of grade [g] of school
    [school_idx], one year after the other. *)
Definition grade_values (data : ndarray3) (school_idx g : nat) : list Z :=
  omap (λ plane : list (list cell), cs ← plane !! school_idx; mjoin (cs !! g)) data.

(** The mean of the yearly totals in the words of the specification: over
    the years in which the school has a cell that is not missing. *)
Definition mean_yearly_over_years_with_data (school_data : list (list cell)) : float :=
  let with_data := filter (λ cs, values cs ≠ []) school_data in
  match with_data with
  | [] => None
  | _ :: _ =>
      Some (Qmake (np_sum (nansum <$> with_data)) (Pos.of_nat (length with_data)))
  end.

(** The values over [bound] among the cells of school [school_idx], year
    after year and grade after grade. *)
Definition values_over (bound : Z) (data : ndarray3) (school_idx : nat) : list Z :=
  plane ← data;
  cs ← option_list (plane !! school_idx);
  c ← cs;
  match c with
  | Some v => if decide (bound < v)%Z then [v] else []
  | None => []
  end.

(** What [main] has written when the selector starts. *)
Definition preamble : list string :=
  [ "ENSF 692 School Enrollment Statistics";
    "Shape of full data array:  (10, 20, 3)";
    "Dimensions of full data array:  3";
    "Please enter the high school name or school code: " ].

Definition requested_header : string :=
  LF +:+ "***Requested School Statistics***" +:+ LF.

(** A run that returns. *)
Definition returns {A} (m : M A) : Prop := ∃ out x, m = (out, inr x).

(** [out] is the output of a run whose last step is [k], which returns. *)
Definition ends_in (k : M unit) (out : list string) : Prop :=
  ∃ front back, k = (back, inr tt) ∧ out = front ++ back.

(** All the cells of school [school_idx], year after year. *)
Definition school_cells (data : ndarray3) (school_idx : nat) : list cell :=
  plane ← data; default [] (plane !! school_idx).

(** A count that [float32] holds as it is: an integer up to 2^24 in absolute
    value; NaN is held as it is. *)
Definition float32_count (c : cell) : Prop :=
  match c with
  | Some v => (Z.abs v ≤ 2 ^ 24)%Z
  | None => True
  end.

(** Values that [float32] adds without rounding, in whatever order: their
    absolute values add up to 2^24 at most, so that each value and each sum
    of some of them is an integer that [float32] holds. *)
Definition float32_sum (vs : list Z) : Prop :=
  (np_sum (Z.abs <$> vs) ≤ 2 ^ 24)%Z.

(** The same of the cells of [l] that are not missing. *)
Definition float32_exact (l : list cell) : Prop := float32_sum (values l).

(** A run that ends on exception [e]. *)
Definition raises {A} (e : exn) (m : M A) : Prop := ∃ out, m = (out, inl e).

(** The message of [int] on NaN. *)
Definition nan_to_integer : string := "cannot convert float NaN to integer".

(** The integer part of a rational, towards zero. *)
Definition int_part (q : Q) : Z := (Qnum q ÷ Zpos (Qden q))%Z.


(** The line of the [i]-th yearly total. *)
Definition total_line (i : nat) (t : Z) : string :=
  "  Total enrollment for " +:+ pretty (2013 + i) +:+ ": " +:+ pretty t.


(** ** Sample data *)

Definition df_example : DataFrame :=
  [ Row 2014 20 "B" (Some 510%Z) (Some 520%Z) (Some 530%Z);
    Row 2013 10 "A" (Some 100%Z) None (Some 300%Z);
    Row 2013 20 "B" (Some 400%Z) (Some 600%Z) (Some 501%Z) ].

(** Ten years of one school. *)
Definition df_ten : DataFrame :=
  (λ i, Row (2013 + Z.of_nat i) 7 "Seven"
            (Some (500 + Z.of_nat i)%Z) (Some 10%Z) (Some 20%Z)) <$> seq 0 10.

(** The one-character string made of U+00B2, superscript two. *)
Definition superscript_two : string := String (Ascii.ascii_of_nat 178) "".


(** Eleven years of one school. *)
Definition df_eleven : DataFrame :=
  (λ i, Row (2013 + Z.of_nat i) 7 "Seven"
            (Some (500 + Z.of_nat i)%Z) (Some 10%Z) (Some 20%Z)) <$> seq 0 11.

(** Two years of one school, with no enrollment over 500. *)
Definition df_two_years : DataFrame :=
  [ Row 2013 5 "Five" (Some 100%Z) (Some 200%Z) (Some 300%Z);
    Row 2014 5 "Five" (Some 110%Z) (Some 210%Z) (Some 310%Z) ].

(** Ten years of one school, with no enrollment over 500. *)
Definition df_ten_small : DataFrame :=
  (λ i, Row (2013 + Z.of_nat i) 7 "Seven"
            (Some (100 + Z.of_nat i)%Z) (Some 10%Z) (Some 20%Z)) <$> seq 0 10.

(** Two schools of one name, the one of the greater code coming first. *)
Definition df_twins : DataFrame :=
  [ Row 2013 30 "Twin" (Some 1%Z) (Some 2%Z) (Some 3%Z);
    Row 2013 10 "Twin" (Some 4%Z) (Some 5%Z) (Some 6%Z) ].

(** ** Sanity checks *)

Example load_example :
  load_school_data df_example =
  ([ [ [Some 100%Z; None; Some 300%Z]; [Some 400%Z; Some 600%Z; Some 501%Z] ];
     [ [None; None; None]; [Some 510%Z; Some 520%Z; Some 530%Z] ] ],
   [10%Z; 20%Z], [(20%Z, "B"); (10%Z, "A")]).
Proof. vm_compute. reflexivity. Qed.

Example main_by_name :
  main df_ten "Seven" =
  (preamble ++
   [ requested_header;
     LF +:+ "School Name: Seven, School Code: 7";
     "Mean Enrollment for Grade 10: 504";
     "Mean Enrollment for Grade 11: 10";
     "Mean Enrollment for Grade 12: 20";
     "Highest Enrollment for a single Grade: 509";
     "Lowest Enrollment for a single Grade: 10";
     "  Total enrollment for 2013: 530";
     "  Total enrollment for 2014: 531";
     "  Total enrollment for 2015: 532";
     "  Total enrollment for 2016: 533";
     "  Total enrollment for 2017: 534";
     "  Total enrollment for 2018: 535";
     "  Total enrollment for 2019: 536";
     "  Total enrollment for 2020: 537";
     "  Total enrollment for 2021: 538";
     "  Total enrollment for 2022: 539";
     "Total Ten Year Enrollment: 5345";
     "Mean Total Yearly Enrollment Over 10 Years: 534";
     "For all enrollments over 500, the median value was: 505";
     LF +:+ "***General Statistics for All Schools***" +:+ LF;
     "Mean Enrollment in 2013: 176";
     "Mean Enrollment in 2022: 179";
     "Total Graduating Class of 2022: 20";
     "Highest Enrollment for a Single Grade: 509";
     "Lowest Enrollment for a Single Grade: 10" ],
   inr tt).
Proof. vm_compute. reflexivity. Qed.

Example main_too_few_years :
  (main df_example "B").2 = inl IndexError.
Proof. vm_compute. reflexivity. Qed.

Example isdigit_examples :
  isdigit "2013" = true ∧ isdigit "" = false ∧ isdigit "-123" = false ∧
  isdigit "12.0" = false ∧ isdigit superscript_two = true.
Proof. vm_compute. done. Qed.

(** ** The loader *)

Section unique.
Context `{EqDecision A}.
Implicit Types l : list A.

Lemma elem_of_unique l x : x ∈ unique l ↔ x ∈ l.
Proof.
  induction l as [|a l IH]; simpl; [done|].
  rewrite !elem_of_cons, list_elem_of_filter, IH.
  destruct (decide (x = a)); naive_solver.
Qed.

Lemma NoDup_unique l : NoDup (unique l).
Proof.
  induction l as [|a l IH]; simpl; [constructor|].
  apply NoDup_cons. split.
  - rewrite list_elem_of_filter. naive_solver.
  - by apply NoDup_filter.
Qed.
End unique.

Lemma sorted_Permutation l : sorted l ≡ₚ l.
Proof. apply merge_sort_Permutation. Qed.

Lemma sorted_StronglySorted l : StronglySorted Z.le (sorted l).
Proof. apply (StronglySorted_merge_sort Z.le). Qed.

Lemma elem_of_sorted l x : x ∈ sorted l ↔ x ∈ l.
Proof. by rewrite sorted_Permutation. Qed.

Lemma length_sorted l : length (sorted l) = length l.
Proof. by rewrite sorted_Permutation. Qed.

Lemma StronglySorted_le_lt (l : list Z) :
  StronglySorted Z.le l → NoDup l → StronglySorted Z.lt l.
Proof.
  induction 1 as [|x l Hl IH Hx]; [constructor|].
  intros [Hnin Hnd]%NoDup_cons. constructor.
  - by apply IH.
  - rewrite Forall_forall in Hx |- *. intros y Hy.
    specialize (Hx y Hy). assert (x ≠ y) by (by intros ->). lia.
Qed.

Lemma sorted_unique_ascending (l : list Z) :
  StronglySorted Z.lt (sorted (unique l)).
Proof.
  apply StronglySorted_le_lt; [apply sorted_StronglySorted|].
  rewrite sorted_Permutation. apply NoDup_unique.
Qed.

Lemma elem_of_sorted_unique (l : list Z) x : x ∈ sorted (unique l) ↔ x ∈ l.
Proof. by rewrite elem_of_sorted, elem_of_unique. Qed.

Lemma elem_of_school_codes_of df code :
  code ∈ school_codes_of df ↔ ∃ r, r ∈ df ∧ School_Code r = code.
Proof.
  unfold school_codes_of. rewrite elem_of_sorted_unique, list_elem_of_fmap.
  naive_solver.
Qed.

Lemma elem_of_years_of df year :
  year ∈ years_of df ↔ ∃ r, r ∈ df ∧ School_Year r = year.
Proof.
  unfold years_of. rewrite elem_of_sorted_unique, list_elem_of_fmap.
  naive_solver.
Qed.

(** *** Assignments to the table *)

Lemma getitem2_setitem2 data i j v i' j' :
  getitem2 (setitem2 i j v data) i' j' =
  if decide (i = i' ∧ j = j')
  then (λ _, v) <$> getitem2 data i' j'
  else getitem2 data i' j'.
Proof.
  unfold getitem2, setitem2. rewrite list_lookup_alter.
  destruct (decide (i = i')) as [->|Hi].
  - destruct (data !! i') as [plane|]; simpl.
    + rewrite list_lookup_insert.
      repeat case_decide; try naive_solver.
      * by destruct (lookup_lt_is_Some_2 plane j') as [? ->]; [lia|].
      * assert (plane !! j' = None) as ->; [|done].
        apply lookup_ge_None. naive_solver lia.
    + by case_decide.
  - case_decide; naive_solver.
Qed.

Lemma length_setitem2 data i j v : length (setitem2 i j v data) = length data.
Proof. apply length_alter. Qed.

Lemma getitem2_fill_cell df i year j code data i' j' :
  getitem2 (fill_cell df i year j code data) i' j' =
  if decide (i = i' ∧ j = j')
  then filled df year code <$> getitem2 data i' j'
  else getitem2 data i' j'.
Proof.
  unfold fill_cell, filled. destruct (select_rows df year code) as [|r ?].
  - case_decide; [|done]. by destruct (getitem2 data i' j').
  - apply getitem2_setitem2.
Qed.

Lemma getitem2_fill_year df codes i year data i' j' :
  getitem2 (fill_year df codes i year data) i' j' =
  if decide (i = i')
  then match codes !! j' with
       | Some code => filled df year code <$> getitem2 data i' j'
       | None => getitem2 data i' j'
       end
  else getitem2 data i' j'.
Proof.
  unfold fill_year.
  cut (∀ j0 data,
    getitem2 (for_enumerate (fill_cell df i year) j0 codes data) i' j' =
    if decide (i = i' ∧ j0 ≤ j')
    then match codes !! (j' - j0) with
         | Some code => filled df year code <$> getitem2 data i' j'
         | None => getitem2 data i' j'
         end
    else getitem2 data i' j').
  { intros H. rewrite H, Nat.sub_0_r.
    repeat case_decide; naive_solver lia. }
  induction codes as [|code codes IH]; intros j0 data0; simpl.
  - by case_decide.
  - rewrite IH, getitem2_fill_cell.
    destruct (decide (i = i' ∧ j0 ≤ j')) as [[-> Hj]|Hn].
    + destruct (decide (j0 = j')) as [->|Hne].
      * rewrite Nat.sub_diag. simpl.
        rewrite decide_False by lia. by rewrite decide_True by done.
      * rewrite decide_True by lia.
        replace (j' - j0) with (S (j' - S j0)) by lia. simpl.
        by rewrite decide_False by naive_solver.
    + rewrite decide_False by naive_solver lia.
      by rewrite decide_False by naive_solver lia.
Qed.

Lemma getitem2_fill_table df codes years data i' j' :
  getitem2 (for_enumerate (fill_year df codes) 0 years data) i' j' =
  match years !! i', codes !! j' with
  | Some year, Some code => filled df year code <$> getitem2 data i' j'
  | _, _ => getitem2 data i' j'
  end.
Proof.
  cut (∀ i0 data,
    getitem2 (for_enumerate (fill_year df codes) i0 years data) i' j' =
    if decide (i0 ≤ i')
    then match years !! (i' - i0), codes !! j' with
         | Some year, Some code => filled df year code <$> getitem2 data i' j'
         | _, _ => getitem2 data i' j'
         end
    else getitem2 data i' j').
  { intros H. rewrite H, Nat.sub_0_r. by rewrite decide_True by lia. }
  induction years as [|year years IH]; intros i0 data0; simpl.
  - by case_decide.
  - rewrite IH, getitem2_fill_year.
    destruct (decide (i0 ≤ i')) as [Hi|Hi].
    + destruct (decide (i0 = i')) as [->|Hne].
      * rewrite Nat.sub_diag. simpl. by rewrite decide_False by lia.
      * rewrite decide_True by lia.
        replace (i' - i0) with (S (i' - S i0)) by lia. done.
    + rewrite decide_False by lia. by rewrite decide_False by lia.
Qed.

Lemma getitem2_full_nan n0 n1 n2 i j :
  i < n0 → j < n1 → getitem2 (full_nan n0 n1 n2) i j = Some (replicate n2 NaN).
Proof.
  intros Hi Hj. unfold getitem2, full_nan.
  rewrite lookup_replicate_2 by done. simpl.
  by rewrite lookup_replicate_2.
Qed.

(** *** Shape of the table *)

Lemma for_enumerate_preserves {A St} (P : St → Prop) (body : nat → A → St → St) :
  (∀ i x s, P s → P (body i x s)) →
  ∀ l i s, P s → P (for_enumerate body i l s).
Proof. intros Hbody l. induction l; simpl; auto. Qed.

Lemma shape3_full_nan n0 n1 n2 : shape3 n0 n1 n2 (full_nan n0 n1 n2).
Proof.
  split; [apply length_replicate|].
  apply Forall_replicate. split; [apply length_replicate|].
  apply Forall_replicate, length_replicate.
Qed.

Lemma shape3_setitem2 n0 n1 n2 i j v data :
  length v = n2 → shape3 n0 n1 n2 data → shape3 n0 n1 n2 (setitem2 i j v data).
Proof.
  intros Hv [Hlen Hall]. split; [by rewrite length_setitem2|].
  unfold setitem2. apply Forall_alter; [done|].
  intros plane _ [Hplane Hcells]. split; [by rewrite length_insert|].
  by apply Forall_insert.
Qed.

Lemma shape3_fill_cell n0 n1 df i year j code data :
  shape3 n0 n1 3 data → shape3 n0 n1 3 (fill_cell df i year j code data).
Proof.
  intros Hs. unfold fill_cell. destruct (select_rows df year code); [done|].
  by apply shape3_setitem2.
Qed.

Lemma shape3_load df :
  shape3 (length (years_of df)) (length (school_codes_of df)) 3
         (load_school_data df).1.1.
Proof.
  simpl. apply for_enumerate_preserves; [|apply shape3_full_nan].
  intros i year data Hs. unfold fill_year.
  apply for_enumerate_preserves; [|done].
  intros j code data'. apply shape3_fill_cell.
Qed.

Lemma select_rows_nil df year code :
  select_rows df year code = [] ↔
  ∀ r, r ∈ df → ¬ (School_Year r = year ∧ School_Code r = code).
Proof.
  unfold select_rows. split.
  - intros Hnil r Hr HP. exact (filter_nil_not_elem_of _ df r Hnil HP Hr).
  - intros Hnone. induction df as [|r df IH]; [done|].
    rewrite filter_cons_False by (apply Hnone; left).
    apply IH. intros r' Hr'. apply Hnone. by right.
Qed.

Lemma getitem2_load df i j year code :
  years_of df !! i = Some year →
  school_codes_of df !! j = Some code →
  getitem2 (load_school_data df).1.1 i j =
  Some (filled df year code [NaN; NaN; NaN]).
Proof.
  intros Hy Hc. simpl. rewrite getitem2_fill_table, Hy, Hc.
  rewrite getitem2_full_nan; [done| |].
  - by eapply lookup_lt_Some.
  - by eapply lookup_lt_Some.
Qed.

(** C8. The loader returns a table of shape (number of distinct years,
    number of distinct school codes, 3); the years and the school codes that
    label its first two axes are exactly those of the source, in strictly
    ascending order; an entry whose (year, school) pair has no row in the
    source holds three NaN, and an entry whose pair has a row holds the
    three grade counts of the first such row, as long as these are counts
    that [float32] holds (2^24 at most in absolute value). *)
Theorem load_school_data_dense (df : DataFrame) :
  let data := (load_school_data df).1.1 in
  let school_codes := (load_school_data df).1.2 in
  let years := years_of df in
  shape3 (length years) (length school_codes) 3 data ∧
  StronglySorted Z.lt years ∧
  (∀ year, year ∈ years ↔ ∃ r, r ∈ df ∧ School_Year r = year) ∧
  StronglySorted Z.lt school_codes ∧
  (∀ code, code ∈ school_codes ↔ ∃ r, r ∈ df ∧ School_Code r = code) ∧
  ∀ i j year code,
    years !! i = Some year → school_codes !! j = Some code →
    ((∀ r, r ∈ df → ¬ (School_Year r = year ∧ School_Code r = code)) →
       getitem2 data i j = Some [NaN; NaN; NaN]) ∧
    (∀ r, head (select_rows df year code) = Some r →
       Forall float32_count (grades r) →
       getitem2 data i j = Some (grades r)).
Proof.
  intros data school_codes years. split_and!.
  - apply shape3_load.
  - apply sorted_unique_ascending.
  - apply elem_of_years_of.
  - apply sorted_unique_ascending.
  - apply elem_of_school_codes_of.
  - intros i j year code Hy Hc.
    pose proof (getitem2_load df i j year code Hy Hc) as Hget.
    unfold filled in Hget. split.
    + intros Habsent%select_rows_nil. by rewrite Habsent in Hget.
    + intros r Hr _. by destruct (select_rows df year code); simplify_eq/=.
Qed.

Lemma load_school_data_dense_witness :
  getitem2 (load_school_data df_example).1.1 1 0 = Some [NaN; NaN; NaN] ∧
  getitem2 (load_school_data df_example).1.1 0 1
    = Some [Some 400%Z; Some 600%Z; Some 501%Z].
Proof.
  destruct (load_school_data_dense df_example) as (_ & _ & _ & _ & _ & H).
  split.
  - apply (proj1 (H 1 0 2014%Z 10%Z eq_refl eq_refl)).
    intros r Hr [Hyear Hcode].
    repeat (apply elem_of_cons in Hr as [->|Hr]; [simpl in *; lia|]).
    by apply not_elem_of_nil in Hr.
  - apply (proj2 (H 0 1 2013%Z 20%Z eq_refl eq_refl)
             (Row 2013 20 "B" (Some 400%Z) (Some 600%Z) (Some 501%Z))).
    + reflexivity.
    + repeat constructor; by vm_compute.
Defined.

(** ** Reductions that skip NaN *)

Lemma nansum_values l : nansum l = np_sum (values l).
Proof.
  unfold nansum, replace_nan, values, np_sum.
  induction l as [|[v|] l IH]; simpl in *; [done|by f_equal|done].
Qed.

Lemma count_not_nan_values l : count_not_nan l = length (values l).
Proof.
  unfold count_not_nan, values.
  induction l as [|[v|] l IH]; [done| |].
  - rewrite filter_cons_True by done. simpl. by rewrite IH.
  - rewrite filter_cons_False by (by intros []). done.
Qed.

Lemma nanmean_values l :
  nanmean l =
  match values l with
  | [] => None
  | _ :: _ => Some (Qmake (np_sum (values l)) (Pos.of_nat (length (values l))))
  end.
Proof.
  unfold nanmean. rewrite count_not_nan_values, nansum_values.
  destruct (values l) as [|v vs]; simpl; [done|].
  by rewrite Pos.of_nat_succ.
Qed.

Lemma values_fmap_Some (l : list Z) : values (Some <$> l) = l.
Proof. unfold values. induction l; simpl; [done|by f_equal]. Qed.

Lemma values_replicate_NaN n : values (replicate n NaN) = [].
Proof. unfold values. induction n; simpl; done. Qed.

Lemma nansum_all_nan n : nansum (replicate n NaN) = 0%Z.
Proof. by rewrite nansum_values, values_replicate_NaN. Qed.

(** ** The slice of one school *)

Lemma slice_school_Some data school_idx school_data :
  slice_school data school_idx = Some school_data →
  mapM (λ plane : list (list cell), plane !! school_idx) data = Some school_data.
Proof. by destruct data. Qed.

Lemma slice_school_lookup data school_idx school_data y :
  slice_school data school_idx = Some school_data →
  school_data !! y = getitem2 data y school_idx.
Proof.
  unfold getitem2. intros H%slice_school_Some%mapM_Some_1.
  revert y. induction H as [|plane cs data sd Hcs _ IH]; intros [|y]; simpl.
  - done.
  - done.
  - by rewrite Hcs.
  - apply IH.
Qed.

Lemma slice_school_shape n0 n1 n2 data school_idx :
  shape3 n0 n1 n2 data → school_idx < n1 → data ≠ [] →
  ∃ school_data,
    slice_school data school_idx = Some school_data ∧
    length school_data = n0 ∧
    Forall (λ cs, length cs = n2) school_data.
Proof.
  intros [Hlen Hall] Hidx Hne.
  assert (∃ school_data,
            mapM (λ plane : list (list cell), plane !! school_idx) data
              = Some school_data ∧
            length school_data = n0 ∧
            Forall (λ cs, length cs = n2) school_data) as Hslice;
    [|by destruct data].
  clear Hne. revert n0 Hlen.
  induction Hall as [|plane data [Hplane Hcells] _ IH]; intros n0 Hlen.
  - exists []. by simplify_eq/=.
  - destruct (IH _ eq_refl) as (sd & Hsd & Hsdlen & Hsdall).
    destruct (lookup_lt_is_Some_2 plane school_idx) as [cs Hcs]; [lia|].
    exists (cs :: sd). simpl.
    rewrite Hcs. simpl. rewrite Hsd. simpl. split_and!; [done|simpl in *; lia|].
    constructor; [|done].
    rewrite Forall_forall in Hcells. apply Hcells.
    by eapply list_elem_of_lookup_2.
Qed.

Lemma years_of_nonempty df : df ≠ [] → years_of df ≠ [].
Proof.
  destruct df as [|r df]; [done|]. intros _ Hnil.
  assert (School_Year r ∈ years_of (r :: df)) as Hin.
  { apply elem_of_years_of. exists r. split; [left|done]. }
  rewrite Hnil in Hin. by apply not_elem_of_nil in Hin.
Qed.

Lemma school_codes_of_nil : school_codes_of [] = [].
Proof. reflexivity. Qed.

(** The slice of a valid school of a loaded table: one entry of three cells
    for each year, and at least one year. *)
Lemma slice_school_load df school_idx :
  school_idx < length (school_codes_of df) →
  ∃ school_data,
    slice_school (load_school_data df).1.1 school_idx = Some school_data ∧
    length school_data = length (years_of df) ∧
    Forall (λ cs, length cs = 3) school_data ∧
    school_data ≠ [].
Proof.
  intros Hidx.
  assert (years_of df ≠ []) as Hyears.
  { apply years_of_nonempty.
    intros ->. rewrite school_codes_of_nil in Hidx. simpl in Hidx. lia. }
  destruct (slice_school_shape _ _ _ _ school_idx (shape3_load df) Hidx)
    as (sd & Hsd & Hlen & Hall).
  { destruct (shape3_load df) as [Hlen _]. intros Hnil.
    rewrite Hnil in Hlen. symmetry in Hlen. by apply length_zero_iff_nil in Hlen. }
  exists sd. split_and!; [done..|].
  intros ->. simpl in Hlen. symmetry in Hlen. by apply length_zero_iff_nil in Hlen.
Qed.

(** With at least one entry of three cells the reductions over the slice
    have something to reduce, and the statistics are computed. *)
Lemma compute_school_statistics_slice data school_idx school_data :
  slice_school data school_idx = Some school_data →
  Forall (λ cs, length cs = 3) school_data →
  school_data ≠ [] →
  ∃ max_enrollment min_enrollment,
    nanmax (concat school_data) = ([], inr max_enrollment) ∧
    nanmin (concat school_data) = ([], inr min_enrollment) ∧
    compute_school_statistics data school_idx =
    ([], inr {| mean_enrollments := mean_enrollments_of school_data;
                max_enrollment := max_enrollment;
                min_enrollment := min_enrollment;
                total_enrollment_per_year := total_enrollment_per_year_of school_data;
                total_ten_year := total_ten_year_of school_data;
                mean_yearly := mean_yearly_of school_data;
                large_classes := large_classes_of school_data;
                median_large_classes := median_large_classes_of school_data |}).
Proof.
  intros Hsd Hall Hne. unfold compute_school_statistics. rewrite Hsd.
  destruct school_data as [|cs sd]; [done|].
  apply Forall_cons in Hall as [Hcs _].
  destruct cs as [|c cs]; [done|]. simpl. by eexists _, _.
Qed.

(** ** The per-school reporter *)

Lemma values_column data school_idx school_data g :
  slice_school data school_idx = Some school_data →
  values (column g school_data) = grade_values data school_idx g.
Proof.
  unfold values, column, grade_values. intros H%slice_school_Some%mapM_Some_1.
  induction H as [|plane cs data sd Hcs _ IH]; simpl in *; [done|].
  rewrite Hcs. simpl.
  destruct (mjoin (cs !! g)); [f_equal|]; exact IH.
Qed.

Lemma lookup_mean_enrollments_of school_data g :
  g < 3 →
  mean_enrollments_of school_data !! g = Some (nanmean (column g school_data)).
Proof.
  intros Hg. unfold mean_enrollments_of.
  rewrite list_lookup_fmap, lookup_seq_lt by done. done.
Qed.

Lemma total_ten_year_of_sum school_data :
  total_ten_year_of school_data = np_sum (total_enrollment_per_year_of school_data).
Proof. unfold total_ten_year_of. by rewrite nansum_values, values_fmap_Some. Qed.

Lemma mean_yearly_of_quotient school_data :
  school_data ≠ [] →
  mean_yearly_of school_data =
  Some (Qmake (total_ten_year_of school_data) (Pos.of_nat (length school_data))).
Proof.
  intros Hne. unfold mean_yearly_of.
  rewrite nanmean_values, values_fmap_Some, total_ten_year_of_sum.
  unfold total_enrollment_per_year_of. rewrite length_fmap.
  by destruct school_data.
Qed.

Section per_school.
Variable df : DataFrame.
Variable school_idx : nat.
Hypothesis valid_idx : school_idx < length (school_codes_of df).

Let data := (load_school_data df).1.1.

(** The statistics of a valid school of a loaded table are computed, from
    a slice that has one entry for each year of the table. *)
Lemma compute_school_statistics_load :
  ∃ school_data st,
    slice_school data school_idx = Some school_data ∧
    length school_data = length (years_of df) ∧
    school_data ≠ [] ∧
    compute_school_statistics data school_idx = ([], inr st) ∧
    mean_enrollments st = mean_enrollments_of school_data ∧
    total_enrollment_per_year st = total_enrollment_per_year_of school_data ∧
    total_ten_year st = total_ten_year_of school_data ∧
    mean_yearly st = mean_yearly_of school_data ∧
    large_classes st = large_classes_of school_data ∧
    median_large_classes st = median_large_classes_of school_data ∧
    nanmax (concat school_data) = ([], inr (max_enrollment st)) ∧
    nanmin (concat school_data) = ([], inr (min_enrollment st)).
Proof using valid_idx.
  destruct (slice_school_load df school_idx valid_idx)
    as (sd & Hsd & Hlen & Hall & Hne).
  destruct (compute_school_statistics_slice _ _ _ Hsd Hall Hne)
    as (mx & mn & Hmx & Hmn & Hst).
  eexists sd, _. split_and!; [done|done|done|exact Hst|done..].
Qed.
End per_school.

(** C4. For a valid school of a loaded table, the statistics are computed
    and the mean of each grade is the sum of the school's values of that
    grade that are not missing, divided by the number of these values (NaN
    when there is none); the values are counts that [float32] adds without
    rounding. *)
Theorem mean_per_grade_skips_missing (df : DataFrame) (school_idx g : nat) :
  school_idx < length (school_codes_of df) →
  g < 3 →
  float32_sum (grade_values (load_school_data df).1.1 school_idx g) →
  ∃ st,
    compute_school_statistics (load_school_data df).1.1 school_idx = ([], inr st) ∧
    mean_enrollments st !! g =
    Some (match grade_values (load_school_data df).1.1 school_idx g with
          | [] => None
          | (_ :: _) as vs => Some (Qmake (np_sum vs) (Pos.of_nat (length vs)))
          end).
Proof.
  intros Hidx Hg _.
  destruct (compute_school_statistics_load df school_idx Hidx)
    as (sd & st & Hsd & _ & _ & Hst & Hmean & _).
  exists st. split; [done|].
  rewrite Hmean, lookup_mean_enrollments_of, nanmean_values by done.
  rewrite (values_column _ _ _ _ Hsd).
  by destruct (grade_values _ _ _).
Qed.

Lemma mean_per_grade_skips_missing_witness :
  ∃ st,
    compute_school_statistics (load_school_data df_example).1.1 0 = ([], inr st) ∧
    mean_enrollments st !! 1 = Some None ∧
    mean_enrollments st !! 0 = Some (Some (Qmake 100 1)).
Proof.
  destruct (mean_per_grade_skips_missing df_example 0 1) as (st & Hst & H1);
    [vm_compute; lia|lia|by vm_compute|].
  destruct (mean_per_grade_skips_missing df_example 0 0) as (st' & Hst' & H0);
    [vm_compute; lia|lia|by vm_compute|].
  exists st. split_and!; [done|done|].
  rewrite Hst in Hst'. by simplify_eq.
Defined.

(** C5, as stated, fails: on a table of eleven years the report lists the
    totals of ten years, 2013 to 2022, which add up to 5345, while the
    ten-year total is the sum over the eleven years, 5885. *)
Lemma ten_year_total_of_eleven_years :
  ∃ st out,
    compute_school_statistics (load_school_data df_eleven).1.1 0 = ([], inr st) ∧
    length (total_enrollment_per_year st) = 11 ∧
    np_sum (take 10 (total_enrollment_per_year st)) = 5345%Z ∧
    total_ten_year st = 5885%Z ∧
    print_school_statistics (load_school_data df_eleven).1.1 0 "Seven" 7 = (out, inr tt) ∧
    take 10 (drop 6 out) = imap total_line (take 10 (total_enrollment_per_year st)) ∧
    out !! 16 = Some "Total Ten Year Enrollment: 5885".
Proof. eexists _, _. split_and!; reflexivity. Qed.

(** C5, amended. For a valid school of a loaded table whose cells are
    counts that [float32] adds without rounding, the ten-year total is the
    sum of the per-year totals of all the years of the table, one total for
    each year; when the table has ten years, these are ten totals and the
    ten-year total is their sum. *)
Theorem ten_year_total_is_sum_of_yearly_totals (df : DataFrame) (school_idx : nat) :
  school_idx < length (school_codes_of df) →
  float32_exact (school_cells (load_school_data df).1.1 school_idx) →
  ∃ st,
    compute_school_statistics (load_school_data df).1.1 school_idx = ([], inr st) ∧
    length (total_enrollment_per_year st) = length (years_of df) ∧
    total_ten_year st = np_sum (total_enrollment_per_year st) ∧
    (length (years_of df) = 10 →
     ∃ t0 t1 t2 t3 t4 t5 t6 t7 t8 t9,
       total_enrollment_per_year st = [t0; t1; t2; t3; t4; t5; t6; t7; t8; t9] ∧
       total_ten_year st = (t0 + t1 + t2 + t3 + t4 + t5 + t6 + t7 + t8 + t9)%Z).
Proof.
  intros Hidx _.
  destruct (compute_school_statistics_load df school_idx Hidx)
    as (sd & st & Hsd & Hlen & _ & Hst & _ & Hyear & Hten & _).
  assert (length (total_enrollment_per_year st) = length (years_of df)) as Hlen'.
  { rewrite Hyear. unfold total_enrollment_per_year_of. by rewrite length_fmap. }
  assert (total_ten_year st = np_sum (total_enrollment_per_year st)) as Hsum.
  { rewrite Hyear, Hten. apply total_ten_year_of_sum. }
  exists st. split_and!; [done..|].
  intros Hten_years. rewrite Hten_years in Hlen'. rewrite Hsum.
  destruct (total_enrollment_per_year st) as [|t0 [|t1 [|t2 [|t3 [|t4 [|t5 [|t6
    [|t7 [|t8 [|t9 [|t10 ts]]]]]]]]]]]; try done.
  exists t0, t1, t2, t3, t4, t5, t6, t7, t8, t9. split; [done|].
  unfold np_sum. simpl. lia.
Qed.

Lemma ten_year_total_is_sum_of_yearly_totals_witness :
  ∃ st,
    compute_school_statistics (load_school_data df_ten).1.1 0 = ([], inr st) ∧
    total_enrollment_per_year st =
      [530; 531; 532; 533; 534; 535; 536; 537; 538; 539]%Z ∧
    total_ten_year st = 5345%Z.
Proof.
  destruct (ten_year_total_is_sum_of_yearly_totals df_ten 0)
    as (st & Hst & _ & _ & Hten); [vm_compute; lia|by vm_compute|].
  destruct (Hten eq_refl) as (t0 & t1 & t2 & t3 & t4 & t5 & t6 & t7 & t8 & t9 & Hyear & Hsum).
  exists st. split; [done|].
  vm_compute in Hst. injection Hst as <-.
  vm_compute in Hyear. injection Hyear as <- <- <- <- <- <- <- <- <- <-.
  split; [done|]. rewrite Hsum. reflexivity.
Defined.

Lemma lookup_total_enrollment_per_year_of school_data i cs :
  school_data !! i = Some cs →
  total_enrollment_per_year_of school_data !! i = Some (np_sum (values cs)).
Proof.
  intros Hcs. unfold total_enrollment_per_year_of.
  by rewrite list_lookup_fmap, Hcs, <- nansum_values.
Qed.

(** C9. For a valid school of a loaded table, the mean yearly total is the
    ten-year total divided by the number of years of the table; a year in
    which the school has no data has total zero, and is one of the years
    counted. *)
Theorem mean_yearly_counts_every_year (df : DataFrame) (school_idx : nat) :
  school_idx < length (school_codes_of df) →
  ∃ st,
    compute_school_statistics (load_school_data df).1.1 school_idx = ([], inr st) ∧
    mean_yearly st =
      Some (Qmake (total_ten_year st) (Pos.of_nat (length (years_of df)))) ∧
    ∀ i, getitem2 (load_school_data df).1.1 i school_idx = Some [NaN; NaN; NaN] →
         total_enrollment_per_year st !! i = Some 0%Z.
Proof.
  intros Hidx.
  destruct (compute_school_statistics_load df school_idx Hidx)
    as (sd & st & Hsd & Hlen & Hne & Hst & _ & Hyear & Hten & Hmean & _).
  exists st. rewrite Hyear, Hten, Hmean. split_and!; [done| |].
  - by rewrite mean_yearly_of_quotient, Hlen.
  - intros i Hi. rewrite <- (slice_school_lookup _ _ _ _ Hsd) in Hi.
    by rewrite (lookup_total_enrollment_per_year_of _ _ _ Hi).
Qed.

Lemma mean_yearly_counts_every_year_witness :
  ∃ st,
    compute_school_statistics (load_school_data df_example).1.1 0 = ([], inr st) ∧
    mean_yearly st = Some (Qmake (total_ten_year st) 2) ∧
    total_enrollment_per_year st !! 1 = Some 0%Z.
Proof.
  destruct (mean_yearly_counts_every_year df_example 0) as (st & Hst & Hmean & Hzero);
    [vm_compute; lia|].
  exists st. split_and!; [done|done|].
  apply Hzero. reflexivity.
Defined.

(** C2, as stated, fails: school 10 of the sample has no row for 2014; its
    yearly totals are 400 and 0, and their mean is 400 / 2, not 400 / 1. *)
Lemma mean_yearly_missing_year_counted :
  ∃ st,
    slice_school (load_school_data df_example).1.1 0
      = Some [[Some 100%Z; NaN; Some 300%Z]; [NaN; NaN; NaN]] ∧
    compute_school_statistics (load_school_data df_example).1.1 0 = ([], inr st) ∧
    total_enrollment_per_year st = [400%Z; 0%Z] ∧
    mean_yearly st = Some (Qmake 400 2) ∧
    mean_yearly_over_years_with_data
      [[Some 100%Z; NaN; Some 300%Z]; [NaN; NaN; NaN]] = Some (Qmake 400 1) ∧
    ¬ Qeq (Qmake 400 2) (Qmake 400 1).
Proof.
  eexists. split_and!; [reflexivity..|].
  unfold Qeq. simpl. lia.
Qed.

(** C2, amended. For a valid school of a loaded table whose cells are
    counts that [float32] adds without rounding, the total of a year is the
    sum of the cells of that year that are not missing, and the mean of the
    yearly totals is the sum of the totals of all years divided by the
    number of years of the table. *)
Theorem yearly_totals_skip_missing_cells (df : DataFrame) (school_idx : nat) :
  school_idx < length (school_codes_of df) →
  float32_exact (school_cells (load_school_data df).1.1 school_idx) →
  ∃ st,
    compute_school_statistics (load_school_data df).1.1 school_idx = ([], inr st) ∧
    (∀ i cs, getitem2 (load_school_data df).1.1 i school_idx = Some cs →
             total_enrollment_per_year st !! i = Some (np_sum (values cs))) ∧
    mean_yearly st =
      Some (Qmake (np_sum (total_enrollment_per_year st))
                  (Pos.of_nat (length (years_of df)))).
Proof.
  intros Hidx _.
  destruct (compute_school_statistics_load df school_idx Hidx)
    as (sd & st & Hsd & Hlen & Hne & Hst & _ & Hyear & Hten & Hmean & _).
  exists st. rewrite Hyear, Hmean. split_and!; [done| |].
  - intros i cs Hi. rewrite <- (slice_school_lookup _ _ _ _ Hsd) in Hi.
    by apply lookup_total_enrollment_per_year_of.
  - by rewrite mean_yearly_of_quotient, total_ten_year_of_sum, Hlen.
Qed.

Lemma yearly_totals_skip_missing_cells_witness :
  ∃ st,
    compute_school_statistics (load_school_data df_example).1.1 0 = ([], inr st) ∧
    total_enrollment_per_year st !! 0 = Some 400%Z ∧
    mean_yearly st = Some (Qmake (np_sum (total_enrollment_per_year st)) 2).
Proof.
  destruct (yearly_totals_skip_missing_cells df_example 0) as (st & Hst & Hyear & Hmean);
    [vm_compute; lia|by vm_compute|].
  exists st. split_and!; [done| |done].
  apply (Hyear 0 [Some 100%Z; NaN; Some 300%Z]). reflexivity.
Defined.

(** *** Enrollments over 500 *)

Lemma elem_of_concat {A} (x : A) (ls : list (list A)) :
  x ∈ concat ls ↔ ∃ l, l ∈ ls ∧ x ∈ l.
Proof.
  induction ls as [|l ls IH]; simpl.
  - split; [by intros ?%not_elem_of_nil|]. by intros (? & ?%not_elem_of_nil & _).
  - rewrite elem_of_app, IH. setoid_rewrite elem_of_cons. naive_solver.
Qed.

Lemma greater_than_app bound l1 l2 :
  greater_than bound (l1 ++ l2) = greater_than bound l1 ++ greater_than bound l2.
Proof. unfold greater_than. by rewrite omap_app, filter_app. Qed.

Lemma greater_than_bind bound (cs : list cell) :
  greater_than bound cs =
  cs ≫= λ c, match c with
             | Some v => if decide (bound < v)%Z then [v] else []
             | None => []
             end.
Proof.
  unfold greater_than. induction cs as [|[v|] cs IH]; [done| |].
  - rewrite bind_cons, <- IH. simpl.
    rewrite filter_cons. by destruct (decide (bound < v)%Z).
  - by rewrite bind_cons, <- IH.
Qed.

Lemma large_classes_of_values_over data school_idx school_data :
  slice_school data school_idx = Some school_data →
  large_classes_of school_data = values_over 500 data school_idx.
Proof.
  unfold large_classes_of, values_over. intros H%slice_school_Some%mapM_Some_1.
  induction H as [|plane cs data sd Hcs _ IH]; [done|].
  rewrite bind_cons, Hcs, <- IH. simpl.
  by rewrite greater_than_app, greater_than_bind, app_nil_r.
Qed.

Lemma elem_of_large_classes_of school_data v :
  v ∈ large_classes_of school_data ↔
  (500 < v)%Z ∧ ∃ i g, school_data !! i ≫= (λ cs, cs !! g) = Some (Some v).
Proof.
  unfold large_classes_of, greater_than.
  rewrite list_elem_of_filter, list_elem_of_omap.
  split; intros [Hv H]; (split; [done|]).
  - destruct H as ([w|] & (cs & Hcs & Hw)%elem_of_concat & ?); simplify_eq/=.
    apply list_elem_of_lookup in Hcs as [i Hi].
    apply list_elem_of_lookup in Hw as [g Hg].
    exists i, g. by rewrite Hi.
  - destruct H as (i & g & (cs & Hi & Hg)%bind_Some).
    exists (Some v). split; [|done].
    apply elem_of_concat. exists cs.
    split; by eapply list_elem_of_lookup_2.
Qed.

Lemma median_is_Some l : l ≠ [] → is_Some (median l).
Proof.
  intros Hne. unfold median.
  assert (0 < length (sorted l)) as Hlen.
  { rewrite length_sorted. destruct l; [done|simpl; lia]. }
  set (n := length (sorted l)) in *.
  pose proof (Nat.div_lt n 2 Hlen ltac:(lia)) as Hhalf.
  destruct (lookup_lt_is_Some_2 (sorted l) (n / 2) Hhalf) as [b Hb].
  destruct (lookup_lt_is_Some_2 (sorted l) (n / 2 - 1) ltac:(lia)) as [a Ha].
  rewrite Ha, Hb. destruct (Nat.even n); simpl; eauto.
Qed.

(** *** The median *)

Lemma StronglySorted_lookup_le (s : list Z) i j a b :
  StronglySorted Z.le s → s !! i = Some a → s !! j = Some b → i ≤ j → (a ≤ b)%Z.
Proof.
  intros Hs. revert i j. induction Hs as [|x s Hs IH Hx]; intros i j; [done|].
  destruct i as [|i], j as [|j]; simpl; intros Ha Hb Hij; simplify_eq.
  - lia.
  - rewrite Forall_forall in Hx. apply Hx. by eapply list_elem_of_lookup_2.
  - lia.
  - eapply IH; [done..|lia].
Qed.

Lemma length_filter_take {A} (P : A → Prop) `{∀ x, Decision (P x)} (s : list A) k :
  k ≤ length s → Forall P (take k s) → k ≤ length (filter P s).
Proof.
  intros Hk Hall. rewrite <- (take_drop k s), filter_app, length_app.
  assert (filter P (take k s) = take k s) as ->.
  { clear Hk. induction Hall as [|x l Hx _ IH]; [done|].
    by rewrite filter_cons_True, IH. }
  rewrite length_take_le by done. lia.
Qed.

Lemma length_filter_drop {A} (P : A → Prop) `{∀ x, Decision (P x)} (s : list A) k :
  Forall P (drop k s) → length s - k ≤ length (filter P s).
Proof.
  intros Hall. rewrite <- (take_drop k s) at 2. rewrite filter_app, length_app.
  assert (filter P (drop k s) = drop k s) as ->.
  { induction Hall as [|x l Hx _ IH]; [done|].
    by rewrite filter_cons_True, IH. }
  rewrite length_drop. lia.
Qed.

(** [np.median] returns a median: at least half of the values are at most
    it, and at least half are at least it. *)
Lemma median_spec (l : list Z) (m : Q) :
  median l = Some m →
  length l ≤ 2 * length (filter (λ x, x * Zpos (Qden m) ≤ Qnum m)%Z l) ∧
  length l ≤ 2 * length (filter (λ x, Qnum m ≤ x * Zpos (Qden m))%Z l).
Proof.
  unfold median. intros Hm.
  pose proof (sorted_StronglySorted l) as Hs.
  rewrite <- !(sorted_Permutation l). set (s := sorted l) in *.
  set (n := length s) in *.
  assert (∀ k a (P : Z → Prop) `{∀ x, Decision (P x)},
            s !! k = Some a → (∀ x, (x ≤ a)%Z → P x) →
            S k ≤ length (filter P s)) as Hbelow.
  { intros k a P ? Ha HP. apply length_filter_take.
    - by apply lookup_lt_Some in Ha.
    - apply Forall_forall. intros x (i & Hi & Hlt)%elem_of_take.
      apply HP. eapply StronglySorted_lookup_le; [done..|lia]. }
  assert (∀ k a (P : Z → Prop) `{∀ x, Decision (P x)},
            s !! k = Some a → (∀ x, (a ≤ x)%Z → P x) →
            n - k ≤ length (filter P s)) as Habove.
  { intros k a P ? Ha HP. apply length_filter_drop.
    apply Forall_lookup. intros i x Hi. rewrite lookup_drop in Hi.
    apply HP. eapply StronglySorted_lookup_le; [done..|lia]. }
  destruct (Nat.even n) eqn:Heven.
  - apply Nat.even_spec in Heven as [p Hp].
    assert (n / 2 = p) as Hhalf.
    { rewrite Hp, Nat.mul_comm. by apply Nat.div_mul. }
    rewrite Hhalf in Hm.
    destruct (s !! (p - 1)) as [a|] eqn:Ha; [|done].
    destruct (s !! p) as [b|] eqn:Hb; [|done].
    injection Hm as <-. cbn [Qnum Qden].
    assert (a ≤ b)%Z by (eapply StronglySorted_lookup_le; [done..|lia]).
    pose proof (lookup_lt_Some _ _ _ Hb) as Hlt. fold n in Hlt.
    split.
    + pose proof (Hbelow _ _ (λ x, x * 2 ≤ a + b)%Z _ Ha) as Hc.
      specialize (Hc ltac:(intros; cbv beta; lia)). lia.
    + pose proof (Habove _ _ (λ x, a + b ≤ x * 2)%Z _ Hb) as Hc.
      specialize (Hc ltac:(intros; cbv beta; lia)). lia.
  - assert (Nat.odd n = true) as [p Hp]%Nat.odd_spec.
    { by rewrite <- Nat.negb_even, Heven. }
    assert (n / 2 = p) as Hhalf.
    { rewrite Hp, Nat.mul_comm, Nat.div_add_l by done. simpl. lia. }
    rewrite Hhalf in Hm.
    destruct (s !! p) as [a|] eqn:Ha; [|done].
    injection Hm as <-. cbn [Qnum Qden inject_Z].
    split.
    + pose proof (Hbelow _ _ (λ x, x * 1 ≤ a)%Z _ Ha) as Hc.
      specialize (Hc ltac:(intros; cbv beta; lia)). lia.
    + pose proof (Habove _ _ (λ x, a ≤ x * 1)%Z _ Ha) as Hc.
      specialize (Hc ltac:(intros; cbv beta; lia)). lia.
Qed.

(** *** Runs of the report *)

Lemma bind_returns {A B} (m : M A) (f : A → M B) out y :
  m ≫= f = (out, inr y) →
  ∃ o1 x o2, m = (o1, inr x) ∧ f x = (o2, inr y) ∧ out = o1 ++ o2.
Proof.
  unfold mbind, M_bind. destruct m as [o1 [e|x]]; [done|].
  destruct (f x) as [o2 r] eqn:Hf. intros [= <- ->]. by eexists _, _, _.
Qed.

Lemma bind_run {A B} (m : M A) (f : A → M B) o1 x o2 r :
  m = (o1, inr x) → f x = (o2, r) → m ≫= f = (o1 ++ o2, r).
Proof. intros -> Hf. unfold mbind, M_bind. by rewrite Hf. Qed.

Lemma for_in_returns {A} (l : list A) (body : A → M unit) :
  (∀ x, x ∈ l → ∃ out, body x = (out, inr tt)) →
  ∃ out, for_in l body = (out, inr tt).
Proof.
  induction l as [|x l IH]; intros Hbody; simpl; [by eexists|].
  destruct (Hbody x) as [o1 Hx]; [left|].
  destruct IH as [o2 Hl]; [intros y Hy; apply Hbody; by right|].
  eexists. by eapply bind_run.
Qed.

Lemma bind_ends_in {A} (m : M A) (f : A → M unit) k out :
  m ≫= f = (out, inr tt) →
  (∀ x o, f x = (o, inr tt) → ends_in k o) →
  ends_in k out.
Proof.
  intros (o1 & x & o2 & _ & Hf & ->)%bind_returns Hk.
  destruct (Hk _ _ Hf) as (front & back & Hback & ->).
  exists (o1 ++ front), back. by rewrite app_assoc.
Qed.

(** The last thing a report that runs to its end has printed is what the
    lines about the enrollments over 500 print. *)
Lemma print_school_report_ends st name code out :
  print_school_report st name code = (out, inr tt) →
  ends_in (print_median_large_classes st) out.
Proof.
  unfold print_school_report. intros H.
  do 9 (eapply bind_ends_in; [exact H|]; clear H; intros ? ? H).
  eexists [], _. split; [exact H|done].
Qed.

Lemma returns_bind {A B} (m : M A) (f : A → M B) :
  returns m → (∀ x, returns (f x)) → returns (m ≫= f).
Proof.
  intros (o1 & x & ->) Hf. destruct (Hf x) as (o2 & y & Hy).
  exists (o1 ++ o2), y. unfold mbind, M_bind. by rewrite Hy.
Qed.

Lemma mret_bind {A B} (x : A) (f : A → M B) : mret x ≫= f = f x.
Proof. unfold mbind, M_bind, mret, M_ret. by destruct (f x). Qed.

Lemma bind_pure {A B} (m : M A) (x : A) (f : A → M B) :
  m = ([], inr x) → m ≫= f = f x.
Proof. intros ->. apply mret_bind. Qed.

Lemma or_raise_Some_bind {A B} e (x : A) (f : A → M B) :
  or_raise e (Some x) ≫= f = f x.
Proof. apply mret_bind. Qed.

Lemma returns_print s : returns (print s).
Proof. by eexists _, _. Qed.

Lemma returns_or_raise {A} e (o : option A) : is_Some o → returns (or_raise e o).
Proof. intros [x ->]. by eexists _, _. Qed.

Lemma returns_py_int (x : float) : is_Some x → returns (py_int x).
Proof. intros [q ->]. by eexists _, _. Qed.

Lemma returns_for_in {A} (l : list A) (body : A → M unit) :
  (∀ x, x ∈ l → returns (body x)) → returns (for_in l body).
Proof.
  induction l as [|x l IH]; intros Hbody; simpl; [by eexists _, _|].
  apply returns_bind; [apply Hbody; left|].
  intros _. apply IH. intros y Hy. apply Hbody. by right.
Qed.

Create HintDb returns.

#[local] Hint Resolve returns_print returns_or_raise returns_py_int : returns.

Lemma print_school_report_returns st name code :
  Forall (λ m : float, is_Some m) (mean_enrollments st) →
  length (mean_enrollments st) = 3 →
  is_Some (max_enrollment st) →
  is_Some (min_enrollment st) →
  10 ≤ length (total_enrollment_per_year st) →
  is_Some (mean_yearly st) →
  (∀ m, median_large_classes st = Some m → is_Some m) →
  returns (print_school_report st name code).
Proof.
  intros Hmeans Hlen Hmax Hmin Hyears Hyearly Hmedian.
  assert (∀ g, g < 3 → returns (print_mean_enrollment st g)) as Hmean.
  { intros g Hg. unfold print_mean_enrollment.
    destruct (lookup_lt_is_Some_2 (mean_enrollments st) g) as [m Hm]; [lia|].
    rewrite Hm, or_raise_Some_bind.
    apply returns_bind; [|by auto with returns].
    apply returns_py_int. rewrite Forall_forall in Hmeans.
    apply Hmeans. by eapply list_elem_of_lookup_2. }
  unfold print_school_report.
  apply returns_bind; [apply returns_print|intros _].
  do 3 (apply returns_bind; [apply Hmean; lia|intros _]).
  apply returns_bind; [|intros _].
  { apply returns_bind; [|by auto with returns].
    apply returns_py_int. by destruct Hmax as [? ->]. }
  apply returns_bind; [|intros _].
  { apply returns_bind; [|by auto with returns].
    apply returns_py_int. by destruct Hmin as [? ->]. }
  apply returns_bind; [|intros _].
  { apply returns_for_in. intros i [? ?]%elem_of_seq.
    unfold print_total_enrollment.
    apply returns_bind; [|by auto with returns].
    apply returns_or_raise, lookup_lt_is_Some_2. lia. }
  apply returns_bind; [apply returns_print|intros _].
  apply returns_bind; [|intros _].
  { apply returns_bind; [|by auto with returns]. by apply returns_py_int. }
  unfold print_median_large_classes.
  destruct (median_large_classes st) as [m|] eqn:Hm; [|by auto with returns].
  apply returns_bind; [|by auto with returns].
  apply returns_py_int. by apply Hmedian.
Qed.

Lemma foldl_fmax_is_Some c l :
  is_Some c ∨ (∃ v, Some v ∈ l) → is_Some (foldl fmax c l).
Proof.
  revert c. induction l as [|x l IH]; intros c; simpl.
  - intros [?|[v ?%not_elem_of_nil]]; done.
  - intros [[w ->]|[v [<-|Hv]%elem_of_cons]]; apply IH.
    + left. by destruct x.
    + left. by destruct c.
    + right. by exists v.
Qed.

Lemma foldl_fmin_is_Some c l :
  is_Some c ∨ (∃ v, Some v ∈ l) → is_Some (foldl fmin c l).
Proof.
  revert c. induction l as [|x l IH]; intros c; simpl.
  - intros [?|[v ?%not_elem_of_nil]]; done.
  - intros [[w ->]|[v [<-|Hv]%elem_of_cons]]; apply IH.
    + left. by destruct x.
    + left. by destruct c.
    + right. by exists v.
Qed.

Lemma nanmax_is_Some l v mx :
  Some v ∈ l → nanmax l = ([], inr mx) → is_Some mx.
Proof.
  destruct l as [|c l]; [by intros ?%not_elem_of_nil|].
  intros Hv [= <-]. apply foldl_fmax_is_Some.
  apply elem_of_cons in Hv as [<-|Hv]; [by left|right; by exists v].
Qed.

Lemma nanmin_is_Some l v mn :
  Some v ∈ l → nanmin l = ([], inr mn) → is_Some mn.
Proof.
  destruct l as [|c l]; [by intros ?%not_elem_of_nil|].
  intros Hv [= <-]. apply foldl_fmin_is_Some.
  apply elem_of_cons in Hv as [<-|Hv]; [by left|right; by exists v].
Qed.

Lemma values_column_elem_of g (school_data : list (list cell)) v :
  v ∈ values (column g school_data) → Some v ∈ concat school_data.
Proof.
  unfold values, column.
  intros (c & (cs & -> & Hcs)%list_elem_of_fmap & Hc)%list_elem_of_omap.
  simpl in Hc. apply elem_of_concat. exists cs. split; [done|].
  destruct (cs !! g) as [c|] eqn:Hg; simplify_eq/=.
  by eapply list_elem_of_lookup_2.
Qed.

(** The report of a valid school of a loaded table runs to its end when the
    table has ten years or more and the school has a value in each grade. *)
Lemma print_school_statistics_returns df school_idx name code :
  school_idx < length (school_codes_of df) →
  10 ≤ length (years_of df) →
  (∀ g, g < 3 → grade_values (load_school_data df).1.1 school_idx g ≠ []) →
  returns (print_school_statistics (load_school_data df).1.1 school_idx name code).
Proof.
  intros Hidx Hten Hgrades.
  destruct (compute_school_statistics_load df school_idx Hidx)
    as (sd & st & Hsd & Hlen & Hne & Hst & Hmeans & Hyear & _ & Hyearly
        & Hlarge & Hmedian & Hmx & Hmn).
  assert (∀ g, g < 3 → values (column g sd) ≠ []) as Hvalues.
  { intros g Hg. rewrite (values_column _ _ _ _ Hsd). by apply Hgrades. }
  assert (∃ v, Some v ∈ concat sd) as [v Hv].
  { specialize (Hvalues 0 ltac:(lia)).
    destruct (values (column 0 sd)) as [|v vs] eqn:Hvs; [done|].
    exists v. apply (values_column_elem_of 0). rewrite Hvs. left. }
  unfold print_school_statistics. rewrite (bind_pure _ _ _ Hst).
  apply print_school_report_returns.
  - rewrite Hmeans. unfold mean_enrollments_of. apply Forall_fmap, Forall_forall.
    intros g [_ Hg]%elem_of_seq. simpl. rewrite nanmean_values.
    specialize (Hvalues g ltac:(lia)). by destruct (values _).
  - by rewrite Hmeans.
  - by eapply nanmax_is_Some.
  - by eapply nanmin_is_Some.
  - rewrite Hyear. unfold total_enrollment_per_year_of. rewrite length_fmap. lia.
  - by rewrite Hyearly, mean_yearly_of_quotient.
  - intros m. rewrite Hmedian. unfold median_large_classes_of.
    case_decide as Hpos; [|done]. intros [= <-]. apply median_is_Some.
    destruct (large_classes_of sd); [simpl in Hpos; lia|done].
Qed.

(** C6, as stated, fails: the only school of a table of two years has no
    enrollment over 500, and its median is absent; the report lists the
    totals of ten years, 2013 to 2022, and ends on the third of them,
    before the line of the median: the message is not printed. *)
Lemma no_enrollments_message_not_reached :
  ∃ st,
    compute_school_statistics (load_school_data df_two_years).1.1 0 = ([], inr st) ∧
    large_classes st = [] ∧
    median_large_classes st = None ∧
    print_school_statistics (load_school_data df_two_years).1.1 0 "Five" 5 =
      ([ LF +:+ "School Name: Five, School Code: 5";
         "Mean Enrollment for Grade 10: 105";
         "Mean Enrollment for Grade 11: 205";
         "Mean Enrollment for Grade 12: 305";
         "Highest Enrollment for a single Grade: 310";
         "Lowest Enrollment for a single Grade: 100";
         "  Total enrollment for 2013: 600";
         "  Total enrollment for 2014: 630" ],
       inl IndexError) ∧
    (main df_two_years "Five").2 = inl IndexError ∧
    (main df_two_years "Five").1 =
      preamble ++ requested_header ::
      (print_school_statistics (load_school_data df_two_years).1.1 0 "Five" 5).1.
Proof. eexists. split_and!; vm_compute; reflexivity. Qed.

(** C6, amended. For a valid school of a loaded table, the statistics are
    computed; the enrollments collected are the school's values over 500
    that are not missing, year after year and grade after grade; when there
    is none the median is absent, and otherwise the median is that of the
    values collected (counts that [float32] adds without rounding); the
    line of the median is the last line of every report that runs to its
    end; when the table has ten years or more and the school has a value in
    each grade, the report runs to its end, and its last line is the
    message that there is no enrollment over 500 in the first case, and the
    median in the second. *)
Theorem large_classes_median (df : DataFrame) (school_idx : nat) :
  school_idx < length (school_codes_of df) →
  ∃ st,
    compute_school_statistics (load_school_data df).1.1 school_idx = ([], inr st) ∧
    large_classes st = values_over 500 (load_school_data df).1.1 school_idx ∧
    (∀ v, v ∈ large_classes st ↔
          (500 < v)%Z ∧
          ∃ i g, getitem2 (load_school_data df).1.1 i school_idx
                   ≫= (λ cs, cs !! g) = Some (Some v)) ∧
    (large_classes st = [] →
       median_large_classes st = None ∧
       print_median_large_classes st = (["No enrollments over 500"], inr tt)) ∧
    (large_classes st ≠ [] → float32_sum (large_classes st) →
       ∃ m, median (large_classes st) = Some m ∧
            median_large_classes st = Some (Some m) ∧
            print_median_large_classes st =
              (["For all enrollments over 500, the median value was: "
                +:+ pretty (Qnum m ÷ Zpos (Qden m))%Z], inr tt)) ∧
    (∀ name code out,
       print_school_report st name code = (out, inr tt) →
       ends_in (print_median_large_classes st) out) ∧
    (10 ≤ length (years_of df) →
     (∀ g, g < 3 → grade_values (load_school_data df).1.1 school_idx g ≠ []) →
     ∀ name code, ∃ front,
       (large_classes st = [] →
          print_school_statistics (load_school_data df).1.1 school_idx name code =
            (front ++ ["No enrollments over 500"], inr tt)) ∧
       (∀ m, large_classes st ≠ [] → float32_sum (large_classes st) →
          median (large_classes st) = Some m →
          print_school_statistics (load_school_data df).1.1 school_idx name code =
            (front ++ ["For all enrollments over 500, the median value was: "
                       +:+ pretty (Qnum m ÷ Zpos (Qden m))%Z], inr tt))).
Proof.
  intros Hidx.
  destruct (compute_school_statistics_load df school_idx Hidx)
    as (sd & st & Hsd & _ & _ & Hst & _ & _ & _ & _ & Hlarge & Hmedian & _).
  assert (large_classes st = [] →
          median_large_classes st = None ∧
          print_median_large_classes st = (["No enrollments over 500"], inr tt))
    as Hnone.
  { intros Hnil. unfold print_median_large_classes.
    rewrite Hmedian. unfold median_large_classes_of.
    rewrite <- Hlarge, Hnil. done. }
  assert (large_classes st ≠ [] →
          ∃ m, median (large_classes st) = Some m ∧
               median_large_classes st = Some (Some m) ∧
               print_median_large_classes st =
                 (["For all enrollments over 500, the median value was: "
                   +:+ pretty (Qnum m ÷ Zpos (Qden m))%Z], inr tt))
    as Hsome.
  { intros Hne. destruct (median_is_Some _ Hne) as [m Hm].
    exists m. unfold print_median_large_classes.
    rewrite Hmedian. unfold median_large_classes_of. rewrite <- Hlarge.
    rewrite decide_True by (destruct (large_classes st); [done|simpl; lia]).
    by rewrite Hm. }
  exists st. split_and!; [done| | |done|by intros ? _; apply Hsome| |].
  - rewrite Hlarge. by apply large_classes_of_values_over.
  - intros v. rewrite Hlarge, elem_of_large_classes_of.
    by setoid_rewrite (slice_school_lookup _ _ _ _ Hsd).
  - intros name code out. apply print_school_report_ends.
  - intros Hten Hgrades name code.
    destruct (print_school_statistics_returns df school_idx name code
                Hidx Hten Hgrades) as (out & [] & Hrun).
    rewrite Hrun. unfold print_school_statistics in Hrun.
    rewrite (bind_pure _ _ _ Hst) in Hrun.
    destruct (print_school_report_ends _ _ _ _ Hrun) as (front & back & Hback & ->).
    exists front. split.
    + intros Hnil. destruct (Hnone Hnil) as [_ Hline].
      rewrite Hline in Hback. by simplify_eq.
    + intros m Hne _ Hm. destruct (Hsome Hne) as (m' & Hm' & _ & Hline).
      rewrite Hline in Hback. by simplify_eq.
Qed.

Lemma large_classes_median_witness :
  (∃ st,
    compute_school_statistics (load_school_data df_example).1.1 0 = ([], inr st) ∧
    large_classes st = [] ∧
    print_median_large_classes st = (["No enrollments over 500"], inr tt)) ∧
  (∃ st,
    compute_school_statistics (load_school_data df_example).1.1 1 = ([], inr st) ∧
    large_classes st = [600; 501; 510; 520; 530]%Z ∧
    median_large_classes st = Some (Some (inject_Z 520))) ∧
  (∃ st out,
    compute_school_statistics (load_school_data df_ten).1.1 0 = ([], inr st) ∧
    print_school_report st "Seven" 7 = (out, inr tt) ∧
    ends_in (print_median_large_classes st) out ∧
    last out = Some "For all enrollments over 500, the median value was: 505") ∧
  (∃ front,
    print_school_statistics (load_school_data df_ten).1.1 0 "Seven" 7 =
      (front ++ ["For all enrollments over 500, the median value was: 505"], inr tt)) ∧
  (∃ front,
    print_school_statistics (load_school_data df_ten_small).1.1 0 "Seven" 7 =
      (front ++ ["No enrollments over 500"], inr tt)).
Proof.
  split_and!.
  - destruct (large_classes_median df_example 0)
      as (st & Hst & Hlarge & _ & Hnone & _); [vm_compute; lia|].
    exists st. split_and!; [done|done|]. by apply Hnone.
  - destruct (large_classes_median df_example 1)
      as (st & Hst & Hlarge & _ & _ & Hsome & _); [vm_compute; lia|].
    exists st. split_and!; [done|done|].
    destruct Hsome as (m & Hm & Hmedian & _);
      [by rewrite Hlarge|rewrite Hlarge; by vm_compute|].
    rewrite Hlarge in Hm. vm_compute in Hm. by simplify_eq.
  - destruct (large_classes_median df_ten 0)
      as (st & Hst & _ & _ & _ & _ & Hends & _); [vm_compute; lia|].
    vm_compute in Hst. injection Hst as <-.
    eexists _, _. split_and!; [reflexivity|vm_compute; reflexivity| |reflexivity].
    apply (Hends "Seven" 7%Z). vm_compute. reflexivity.
  - destruct (large_classes_median df_ten 0)
      as (st & Hst & _ & _ & _ & _ & _ & Hrun); [vm_compute; lia|].
    destruct (Hrun ltac:(vm_compute; lia)
                   ltac:(intros [|[|[|g]]] Hg; [by vm_compute..|lia])
                   "Seven" 7%Z) as (front & _ & Hmedian).
    vm_compute in Hst. injection Hst as <-.
    exists front. apply (Hmedian (inject_Z 505)); by vm_compute.
  - destruct (large_classes_median df_ten_small 0)
      as (st & Hst & _ & _ & _ & _ & _ & Hrun); [vm_compute; lia|].
    destruct (Hrun ltac:(vm_compute; lia)
                   ltac:(intros [|[|[|g]]] Hg; [by vm_compute..|lia])
                   "Seven" 7%Z) as (front & Hnone & _).
    vm_compute in Hst. injection Hst as <-.
    exists front. apply Hnone. reflexivity.
Defined.

(** ** The aggregate reporter *)

Lemma mapM_lookup_values (plane : list (list cell)) g :
  Forall (λ cs, g < length cs) plane →
  ∃ col, mapM (λ cs : list cell, cs !! g) plane = Some col ∧
         values col = omap (λ cs : list cell, mjoin (cs !! g)) plane.
Proof.
  unfold values. induction 1 as [|cs plane Hcs _ (col & Hcol & Hvalues)].
  - by exists [].
  - destruct (lookup_lt_is_Some_2 cs g Hcs) as [c Hc].
    exists (c :: col). simpl in *. rewrite Hc. simpl. rewrite Hcol. simpl.
    split; [done|]. destruct c; [f_equal|]; exact Hvalues.
Qed.

Lemma school_codes_of_nonempty df : df ≠ [] → school_codes_of df ≠ [].
Proof.
  destruct df as [|r df]; [done|]. intros _ Hnil.
  assert (School_Code r ∈ school_codes_of (r :: df)) as Hin.
  { apply elem_of_school_codes_of. exists r. split; [left|done]. }
  rewrite Hnil in Hin. by apply not_elem_of_nil in Hin.
Qed.

Lemma compute_general_statistics_shape n0 n1 data :
  shape3 (S n0) (S n1) 3 data →
  ∃ first_year last_year grade_12 max_enrollment min_enrollment,
    head data = Some first_year ∧
    last data = Some last_year ∧
    last_year_grade_12 data = Some grade_12 ∧
    values grade_12 = omap (λ cs : list cell, mjoin (cs !! 2)) last_year ∧
    compute_general_statistics data =
    ([], inr {| mean_first_year := nanmean (concat first_year);
                mean_last_year := nanmean (concat last_year);
                total_grads_last_year := nansum grade_12;
                max_enrollment_all := max_enrollment;
                min_enrollment_all := min_enrollment |}).
Proof.
  intros [Hlen Hall].
  destruct (head data) as [first_year|] eqn:Hhead; last first.
  { apply head_None in Hhead. by subst. }
  destruct (last data) as [last_year|] eqn:Hlast; last first.
  { apply last_None in Hlast. by subst. }
  rewrite Forall_forall in Hall.
  destruct (Hall last_year) as [_ Hcells]; [by apply last_Some_elem_of|].
  destruct (mapM_lookup_values last_year 2) as (grade_12 & Hcol & Hvalues).
  { eapply Forall_impl; [done|]. simpl. lia. }
  assert (∃ c cs, concat (concat data) = c :: cs) as (c & cs & Hcat).
  { destruct data as [|plane data]; simplify_eq/=.
    destruct (Hall first_year) as [Hfirst Hfcells]; [left|].
    destruct first_year as [|cs0 first_year]; [done|].
    apply Forall_cons in Hfcells as [Hcs0 _].
    destruct cs0 as [|c cs0]; [done|]. simpl. eauto. }
  unfold compute_general_statistics, last_year_grade_12.
  rewrite Hhead, Hlast, Hcat. simpl. rewrite Hcol. simpl.
  eexists first_year, last_year, grade_12, _, _. by split_and!.
Qed.

(** C7. For the table loaded from a source that has a row, the aggregate
    statistics are computed, and the total of the graduating class of the
    last year is the sum, over the schools, of the grade-12 cells of the
    last year that are not missing; these cells are counts that [float32]
    adds without rounding. *)
Theorem total_grads_last_year_sum (df : DataFrame) :
  df ≠ [] →
  float32_exact (default [] (last_year_grade_12 (load_school_data df).1.1)) →
  ∃ st last_year,
    compute_general_statistics (load_school_data df).1.1 = ([], inr st) ∧
    (∀ j, last_year !! j =
          getitem2 (load_school_data df).1.1 (length (years_of df) - 1) j) ∧
    total_grads_last_year st =
      np_sum (omap (λ cs : list cell, mjoin (cs !! 2)) last_year).
Proof.
  intros Hne _.
  pose proof (shape3_load df) as Hshape.
  pose proof (years_of_nonempty df Hne) as Hyears.
  pose proof (school_codes_of_nonempty df Hne) as Hcodes.
  destruct (length (years_of df)) as [|n0] eqn:Hn0;
    [by apply length_zero_iff_nil in Hn0|].
  destruct (length (school_codes_of df)) as [|n1] eqn:Hn1;
    [by apply length_zero_iff_nil in Hn1|].
  destruct (compute_general_statistics_shape _ _ _ Hshape)
    as (first_year & last_year & grade_12 & mx & mn
        & _ & Hlast & _ & Hvalues & Hst).
  eexists _, last_year. split_and!; [exact Hst| |].
  - intros j. unfold getitem2.
    destruct Hshape as [Hlen _]. rewrite last_lookup, Hlen in Hlast.
    replace (S n0 - 1) with (pred (S n0)) by lia. by rewrite Hlast.
  - simpl. by rewrite nansum_values, Hvalues.
Qed.

Lemma total_grads_last_year_sum_witness :
  ∃ st,
    compute_general_statistics (load_school_data df_example).1.1 = ([], inr st) ∧
    total_grads_last_year st = 530%Z.
Proof.
  destruct (total_grads_last_year_sum df_example) as (st & last_year & Hst & Hlast & Hsum);
    [done|by vm_compute|].
  exists st. split; [done|]. rewrite Hsum.
  assert (last_year = [[NaN; NaN; NaN]; [Some 510%Z; Some 520%Z; Some 530%Z]]) as ->;
    [|reflexivity].
  apply list_eq. intros j. rewrite Hlast.
  by destruct j as [|[|[|j]]].
Defined.

(** ** The selector *)

Lemma main_unfold df line :
  main df line =
  let r := try_except_ValueError
             (vars ← select_school (school_codes_of df) (school_names_of df) line;
              report (load_school_data df).1.1 vars)
             print in
  (preamble ++ r.1, r.2).
Proof.
  unfold main. simpl.
  by destruct (try_except_ValueError _ _) as [out r].
Qed.

Lemma main_selection_fails df line msg :
  select_school (school_codes_of df) (school_names_of df) line
    = ([], inl (ValueError msg)) →
  main df line = (preamble ++ [msg], inr tt).
Proof. intros H. rewrite main_unfold, H. done. Qed.

Lemma isdigit_decimal line :
  line ≠ "" → all_chars is_decimal line = true → isdigit line = true.
Proof.
  intros Hne Hdec. destruct line as [|c line]; [done|]. unfold isdigit.
  clear Hne. revert Hdec. generalize (String c line). clear.
  induction s as [|c s IH]; simpl; [done|].
  intros [Hc Hs]%andb_true_iff. unfold is_digit. rewrite Hc. simpl. auto.
Qed.

Lemma isdigit_false_not_decimal line :
  isdigit line = false → line = "" ∨ all_chars is_decimal line = false.
Proof.
  intros Hd. destruct (decide (line = "")) as [|Hne]; [by left|right].
  destruct (all_chars is_decimal line) eqn:Hdec; [|done].
  by rewrite (isdigit_decimal _ Hne Hdec) in Hd.
Qed.

Lemma select_by_code_not_found codes names line :
  all_chars is_decimal line = true →
  decimal_value 0 line ∉ codes →
  select_by_code codes names line
    = ([], inl (ValueError "School code not found.")).
Proof.
  intros Hdec Hnin. unfold select_by_code, int_of_str. rewrite Hdec. simpl.
  by rewrite decide_False.
Qed.

Lemma select_by_name_not_found codes names line :
  line ∉ dict_values names →
  select_by_name codes names line
    = ([], inl (ValueError "School name not found.")).
Proof. intros Hnin. unfold select_by_name. by rewrite decide_False. Qed.

Lemma list_index_is_Some `{EqDecision A} (x : A) l :
  x ∈ l → is_Some (list_index x l).
Proof.
  induction l as [|y l IH]; [by intros ?%not_elem_of_nil|].
  intros Hin. simpl. case_decide; [by eexists|].
  apply elem_of_cons in Hin as [->|Hin]; [done|].
  destruct (IH Hin) as [i ->]. by eexists.
Qed.

Lemma dict_getitem_setitem k v d k' :
  dict_getitem k' (dict_setitem k v d) =
  if decide (k = k') then Some v else dict_getitem k' d.
Proof.
  induction d as [|[k0 v0] d IH]; simpl.
  - by repeat case_decide.
  - repeat (case_decide; simpl; simplify_eq); try done.
Qed.

Lemma dict_getitem_to_dict k pairs :
  is_Some (dict_getitem k (to_dict pairs)) ↔ k ∈ pairs.*1.
Proof.
  unfold to_dict.
  cut (∀ d, is_Some (dict_getitem k (foldl (λ d kv, dict_setitem kv.1 kv.2 d) d pairs))
            ↔ is_Some (dict_getitem k d) ∨ k ∈ pairs.*1).
  { intros H. rewrite H. simpl. split; [|by right].
    by intros [[? ?]|?]. }
  induction pairs as [|[k0 v0] pairs IH]; intros d; simpl.
  - split; [by left|]. by intros [?|?%not_elem_of_nil].
  - rewrite IH, dict_getitem_setitem, elem_of_cons.
    case_decide; naive_solver.
Qed.

Lemma dict_getitem_school_names_of df code :
  code ∈ school_codes_of df → is_Some (dict_getitem code (school_names_of df)).
Proof.
  intros (r & Hr & <-)%elem_of_school_codes_of.
  apply dict_getitem_to_dict, list_elem_of_fmap.
  exists (School_Code r, School_Name r). split; [done|].
  apply elem_of_unique, list_elem_of_fmap. by exists r.
Qed.

Lemma select_by_code_found df line :
  all_chars is_decimal line = true →
  decimal_value 0 line ∈ school_codes_of df →
  ∃ idx name,
    school_codes_of df !! idx = Some (decimal_value 0 line) ∧
    select_by_code (school_codes_of df) (school_names_of df) line
      = ([], inr {| school_idx := Some idx;
                    school_name := Some name;
                    school_code := None |}).
Proof.
  intros Hdec Hin. unfold select_by_code, int_of_str. rewrite Hdec. simpl.
  rewrite decide_True by done.
  destruct (list_index_is_Some _ _ Hin) as [idx Hidx].
  destruct (dict_getitem_school_names_of _ _ Hin) as [name Hname].
  exists idx, name. rewrite Hidx, Hname. split; [|done].
  clear -Hidx. revert idx Hidx.
  induction (school_codes_of df) as [|c l IH]; intros idx; simpl; [done|].
  case_decide; [by intros; simplify_eq|].
  destruct (list_index _ l) as [i|]; intros; simplify_eq/=. by apply IH.
Qed.

Lemma list_index_lookup `{EqDecision A} (x : A) l i :
  list_index x l = Some i → l !! i = Some x.
Proof.
  revert i. induction l as [|y l IH]; intros i; simpl; [done|].
  case_decide; [by intros; simplify_eq|].
  destruct (list_index x l) as [i'|]; intros; simplify_eq/=. by apply IH.
Qed.

Lemma dict_keys_setitem k v d k' :
  k' ∈ dict_keys (dict_setitem k v d) → k' = k ∨ k' ∈ dict_keys d.
Proof.
  unfold dict_keys. induction d as [|[k0 v0] d IH]; simpl.
  - rewrite list_elem_of_singleton. by left.
  - case_decide; simpl; rewrite !elem_of_cons; naive_solver.
Qed.

Lemma dict_keys_to_dict k pairs : k ∈ dict_keys (to_dict pairs) → k ∈ pairs.*1.
Proof.
  unfold to_dict.
  cut (∀ d, k ∈ dict_keys (foldl (λ d kv, dict_setitem kv.1 kv.2 d) d pairs)
            → k ∈ dict_keys d ∨ k ∈ pairs.*1).
  { intros H Hk. by destruct (H _ Hk) as [?%not_elem_of_nil|?]. }
  induction pairs as [|[k0 v0] pairs IH]; intros d; simpl; [by left|].
  intros [[->|?]%dict_keys_setitem|?]%IH; rewrite elem_of_cons; auto.
Qed.

Lemma dict_keys_school_names_of df code :
  code ∈ dict_keys (school_names_of df) → code ∈ school_codes_of df.
Proof.
  intros ((c & name) & -> & Hin)%dict_keys_to_dict%list_elem_of_fmap.
  apply elem_of_unique, list_elem_of_fmap in Hin as (r & ? & Hr). simplify_eq/=.
  apply elem_of_school_codes_of. by exists r.
Qed.

Lemma select_by_name_found df line :
  line ∈ dict_values (school_names_of df) →
  ∃ idx code,
    school_codes_of df !! idx = Some code ∧
    (code, line) ∈ school_names_of df ∧
    select_by_name (school_codes_of df) (school_names_of df) line
      = ([], inr {| school_idx := Some idx;
                    school_name := Some line;
                    school_code := Some code |}).
Proof.
  intros Hin. unfold select_by_name. rewrite decide_True by done.
  destruct (list_index_is_Some _ _ Hin) as [i Hi]. rewrite Hi. simpl.
  apply list_index_lookup in Hi. unfold dict_values, dict_keys in *.
  rewrite list_lookup_fmap in Hi. rewrite list_lookup_fmap.
  destruct (school_names_of df !! i) as [[code name]|] eqn:Hd; simplify_eq/=.
  assert (code ∈ school_codes_of df) as Hcode.
  { apply dict_keys_school_names_of, list_elem_of_fmap.
    exists (code, line). split; [done|]. by eapply list_elem_of_lookup_2. }
  destruct (list_index_is_Some _ _ Hcode) as [idx Hidx]. rewrite Hidx. simpl.
  exists idx, code. split_and!; [by apply list_index_lookup| |done].
  by eapply list_elem_of_lookup_2.
Qed.

(** The ways in which the selector ends. *)
Lemma select_school_cases df line :
  let codes := school_codes_of df in
  let names := school_names_of df in
  (isdigit line = true ∧ all_chars is_decimal line = false ∧
   select_school codes names line =
     ([], inl (ValueError ("invalid literal for int() with base 10: '"
                           +:+ line +:+ "'")))) ∨
  (isdigit line = true ∧ all_chars is_decimal line = true ∧
   (decimal_value 0 line ∉ codes) ∧
   select_school codes names line
     = ([], inl (ValueError "School code not found."))) ∨
  (isdigit line = true ∧ all_chars is_decimal line = true ∧
   ∃ idx name,
     codes !! idx = Some (decimal_value 0 line) ∧
     select_school codes names line
       = ([], inr {| school_idx := Some idx; school_name := Some name;
                     school_code := None |})) ∨
  (isdigit line = false ∧ (line ∉ dict_values names) ∧
   select_school codes names line
     = ([], inl (ValueError "School name not found."))) ∨
  (isdigit line = false ∧
   ∃ idx code,
     codes !! idx = Some code ∧ (code, line) ∈ names ∧
     select_school codes names line
       = ([], inr {| school_idx := Some idx; school_name := Some line;
                     school_code := Some code |})).
Proof.
  intros codes names. unfold select_school.
  destruct (isdigit line) eqn:Hd.
  - destruct (all_chars is_decimal line) eqn:Hdec.
    + destruct (decide (decimal_value 0 line ∈ codes)) as [Hin|Hnin].
      * right. right. left. split_and!; [done..|].
        by apply select_by_code_found.
      * right. left. split_and!; [done..|].
        by apply select_by_code_not_found.
    + left. split_and!; [done..|].
      unfold select_by_code, int_of_str. by rewrite Hdec.
  - destruct (decide (line ∈ dict_values names)) as [Hin|Hnin].
    + do 4 right. split; [done|]. by apply select_by_name_found.
    + do 3 right. left. split_and!; [done..|].
      by apply select_by_name_not_found.
Qed.

(** ** Runs of [main] *)

(** [x ∉ l] for a closed [x] and a closed list [l]. *)
Ltac not_in_concrete_list :=
  vm_compute;
  let H := fresh "H" in
  intros H;
  repeat (apply elem_of_cons in H as [H|H]; [done|]);
  by apply not_elem_of_nil in H.

Lemma report_without_school_code data idx name :
  report data {| school_idx := Some idx; school_name := Some name;
                 school_code := None |}
  = ([requested_header], inl (UnboundLocalError "school_code")).
Proof. reflexivity. Qed.

(** C1. The selection by code never reaches the per-school reporter: for
    an input made of decimal digits whose value is a school code of the
    source, [main] resolves the index and the name, leaves [school_code]
    unbound, and ends on the [UnboundLocalError] raised when the call of
    the reporter reads it, right after the header of the section. *)
Theorem selection_by_code_is_not_reported (df : DataFrame) (line : string) :
  line ≠ "" →
  all_chars is_decimal line = true →
  decimal_value 0 line ∈ school_codes_of df →
  main df line
    = (preamble ++ [requested_header], inl (UnboundLocalError "school_code")).
Proof.
  intros Hne Hdec Hin. rewrite main_unfold.
  destruct (select_by_code_found df line Hdec Hin) as (idx & name & _ & Hsel).
  unfold select_school. rewrite (isdigit_decimal _ Hne Hdec), Hsel.
  cbn [mbind M_bind app]. rewrite report_without_school_code. done.
Qed.

Lemma selection_by_code_is_not_reported_witness :
  main df_ten "7"
    = (preamble ++ [requested_header], inl (UnboundLocalError "school_code")) ∧
  (main df_ten "Seven").2 = inr tt ∧
  "Mean Enrollment for Grade 10: 504" ∈ (main df_ten "Seven").1.
Proof.
  split_and!.
  - apply (selection_by_code_is_not_reported df_ten "7"); [done|reflexivity|].
    vm_compute. left.
  - vm_compute. reflexivity.
  - vm_compute. do 6 right. left.
Defined.

(** C3, as stated, fails: "-123" parses as an integer that is no school
    code, and the message is the one for names. *)
Lemma negative_code_reported_as_name :
  parses_as_integer "-123" = Some (-123)%Z ∧
  ((-123)%Z ∉ school_codes_of df_example) ∧
  main df_example "-123" = (preamble ++ ["School name not found."], inr tt) ∧
  "School code not found." ∉ (main df_example "-123").1.
Proof.
  split_and!; [reflexivity| |reflexivity|].
  - not_in_concrete_list.
  - not_in_concrete_list.
Qed.

(** C3, amended. An input made of decimal digits, 4300 at most (the most
    that [int] converts), is looked up among the school codes, and when its
    value is not one of them [main] prints "School code not found." and
    ends normally; an input on which [isdigit] is false is looked up among
    the school names, and when it is not one of them [main] prints "School
    name not found." and ends normally. *)
Theorem selector_failure_messages (df : DataFrame) (line : string) :
  (line ≠ "" → all_chars is_decimal line = true →
   String.length line ≤ 4300 →
   decimal_value 0 line ∉ school_codes_of df →
   main df line = (preamble ++ ["School code not found."], inr tt)) ∧
  (isdigit line = false →
   line ∉ dict_values (school_names_of df) →
   main df line = (preamble ++ ["School name not found."], inr tt)).
Proof.
  split.
  - intros Hne Hdec _ Hnin. apply main_selection_fails.
    unfold select_school. rewrite (isdigit_decimal _ Hne Hdec).
    by apply select_by_code_not_found.
  - intros Hd Hnin. apply main_selection_fails.
    unfold select_school. rewrite Hd.
    by apply select_by_name_not_found.
Qed.

Lemma selector_failure_messages_witness :
  main df_example "99" = (preamble ++ ["School code not found."], inr tt) ∧
  main df_example "C" = (preamble ++ ["School name not found."], inr tt).
Proof.
  destruct (selector_failure_messages df_example "99") as [Hcode _].
  destruct (selector_failure_messages df_example "C") as [_ Hname].
  split.
  - apply Hcode; [done|reflexivity|simpl; lia|].
    not_in_concrete_list.
  - apply Hname; [reflexivity|].
    not_in_concrete_list.
Defined.

(** C10. Superscript two is not a decimal digit, yet [isdigit] accepts it:
    the input made of it is sent to [int], which refuses it, and [main]
    prints the message of [int] and ends; the input is not matched against
    the school names, not even when a school bears that name, and the
    message is not "School name not found.". *)
Lemma superscript_digit_not_matched_against_names :
  all_chars is_decimal superscript_two = false ∧
  (superscript_two ∉ dict_values (school_names_of df_example)) ∧
  main df_example superscript_two
    = (preamble ++ ["invalid literal for int() with base 10: '"
                    +:+ superscript_two +:+ "'"], inr tt) ∧
  main [Row 2013 5 superscript_two (Some 1%Z) (Some 2%Z) (Some 3%Z)] superscript_two
    = (preamble ++ ["invalid literal for int() with base 10: '"
                    +:+ superscript_two +:+ "'"], inr tt).
Proof.
  split_and!; [reflexivity| |reflexivity|reflexivity].
  not_in_concrete_list.
Qed.

(** X19. The selector looks an input up among the school codes only when
    the input is not empty and made of decimal digits; an input on which
    [isdigit] is false, such as "-123" or "12.0", is matched against the
    school names, and when it is not one of them [main] prints "School
    name not found.", not the message for codes. *)
Theorem selector_code_only_for_digits (df : DataFrame) (line : string) :
  let codes := school_codes_of df in
  let names := school_names_of df in
  (∀ out r,
     select_school codes names line = (out, r) →
     r = inl (ValueError "School code not found.")
     ∨ (∃ vars, r = inr vars ∧ school_code vars = None) →
     line ≠ "" ∧ all_chars is_decimal line = true) ∧
  (isdigit line = false →
     select_school codes names line = select_by_name codes names line ∧
     ((line ∉ dict_values names) →
      main df line = (preamble ++ ["School name not found."], inr tt))) ∧
  isdigit "-123" = false ∧
  isdigit "12.0" = false.
Proof.
  intros codes names. split_and!; [| |reflexivity..].
  - intros out r Hsel Hr.
    assert (isdigit line = true → line ≠ "") as Hne by (by intros ? ->).
    destruct (select_school_cases df line)
      as [(Hd & Hdec & H)|[(Hd & Hdec & _ & H)|[(Hd & Hdec & _)
         |[(Hd & _ & H)|(Hd & idx & code & _ & _ & H)]]]];
      [| by auto | by auto | |];
      fold codes names in H; rewrite H in Hsel; simplify_eq;
      destruct Hr as [Hr|(vars & Hr & Hcode)]; by simplify_eq/=.
  - intros Hd. unfold select_school. rewrite Hd. split; [done|].
    intros Hnin. apply main_selection_fails.
    unfold select_school. rewrite Hd. by apply select_by_name_not_found.
Qed.

Lemma selector_code_only_for_digits_witness :
  select_school (school_codes_of df_example) (school_names_of df_example) "-123"
    = select_by_name (school_codes_of df_example) (school_names_of df_example) "-123" ∧
  main df_example "12.0" = (preamble ++ ["School name not found."], inr tt) ∧
  ("99" ≠ "" ∧ all_chars is_decimal "99" = true).
Proof.
  destruct (selector_code_only_for_digits df_example "-123") as (_ & Hname & _).
  destruct (selector_code_only_for_digits df_example "12.0") as (_ & Hname' & _).
  destruct (selector_code_only_for_digits df_example "99") as (Hcode & _).
  split; [|split].
  - by apply Hname.
  - apply Hname'; [reflexivity|].
    not_in_concrete_list.
  - apply (Hcode [] (inl (ValueError "School code not found."))); [reflexivity|].
    by left.
Defined.

(** * Further properties of the script *)

(** ** The directory of school names *)

Lemma elem_of_dict_keys_setitem k v d k' :
  k' ∈ dict_keys (dict_setitem k v d) ↔ k' = k ∨ k' ∈ dict_keys d.
Proof.
  unfold dict_keys. induction d as [|[k0 v0] d IH]; simpl.
  - rewrite list_elem_of_singleton. split; [by left|].
    by intros [?|?%not_elem_of_nil].
  - case_decide; simpl; rewrite !elem_of_cons; [|rewrite IH]; naive_solver.
Qed.

Lemma NoDup_dict_keys_setitem k v d :
  NoDup (dict_keys d) → NoDup (dict_keys (dict_setitem k v d)).
Proof.
  unfold dict_keys. induction d as [|[k0 v0] d IH]; simpl; intros Hnd.
  - apply NoDup_singleton.
  - apply NoDup_cons in Hnd as [Hnin Hnd]. case_decide; simpl.
    + subst. by apply NoDup_cons.
    + apply NoDup_cons. split; [|by apply IH].
      intros [?|?]%(elem_of_dict_keys_setitem k v d k0); done.
Qed.

Lemma to_dict_keys pairs :
  NoDup (dict_keys (to_dict pairs)) ∧
  ∀ k, k ∈ dict_keys (to_dict pairs) ↔ k ∈ pairs.*1.
Proof.
  unfold to_dict.
  cut (∀ d, NoDup (dict_keys d) →
        NoDup (dict_keys (foldl (λ d kv, dict_setitem kv.1 kv.2 d) d pairs)) ∧
        ∀ k, k ∈ dict_keys (foldl (λ d kv, dict_setitem kv.1 kv.2 d) d pairs)
             ↔ k ∈ dict_keys d ∨ k ∈ pairs.*1).
  { intros H. destruct (H [] (NoDup_nil_2)) as [Hnd Hin]. split; [done|].
    intros k. rewrite Hin. split; [by intros [?%not_elem_of_nil|?]|by right]. }
  induction pairs as [|[k0 v0] pairs IH]; intros d Hnd; simpl.
  - split; [done|]. intros k. split; [by left|by intros [?|?%not_elem_of_nil]].
  - destruct (IH (dict_setitem k0 v0 d)) as [Hnd' Hin].
    { by apply NoDup_dict_keys_setitem. }
    split; [done|]. intros k.
    rewrite Hin, elem_of_dict_keys_setitem, elem_of_cons. naive_solver.
Qed.

Lemma dict_getitem_elem_of k v (d : list (Z * string)) :
  dict_getitem k d = Some v → (k, v) ∈ d.
Proof.
  induction d as [|[k0 v0] d IH]; simpl; [done|].
  case_decide; [intros; simplify_eq; left|]. intros ?. right. by apply IH.
Qed.

Lemma dict_getitem_NoDup k v (d : list (Z * string)) :
  NoDup (dict_keys d) → (k, v) ∈ d → dict_getitem k d = Some v.
Proof.
  unfold dict_keys. induction d as [|[k0 v0] d IH]; simpl.
  - by intros _ ?%not_elem_of_nil.
  - intros [Hnin Hnd]%NoDup_cons [?|Hin]%elem_of_cons; simplify_eq.
    + by rewrite decide_True.
    + rewrite decide_False; [by apply IH|]. intros ->. apply Hnin.
      apply list_elem_of_fmap. by exists (k, v).
Qed.

Lemma to_dict_elem_of k v pairs : (k, v) ∈ to_dict pairs → (k, v) ∈ pairs.
Proof.
  unfold to_dict.
  cut (∀ d, (k, v) ∈ foldl (λ d kv, dict_setitem kv.1 kv.2 d) d pairs
            → (k, v) ∈ d ∨ (k, v) ∈ pairs).
  { intros H Hin. by destruct (H _ Hin) as [?%not_elem_of_nil|?]. }
  induction pairs as [|[k0 v0] pairs IH]; intros d; simpl; [by left|].
  intros [Hin|Hin]%IH; [|right; by right].
  assert (∀ d, (k, v) ∈ dict_setitem k0 v0 d → (k, v) = (k0, v0) ∨ (k, v) ∈ d) as Hset.
  { clear. induction d as [|[k1 v1] d IH]; simpl.
    - rewrite list_elem_of_singleton. by left.
    - case_decide; rewrite !elem_of_cons; naive_solver. }
  destruct (Hset _ Hin) as [[= -> ->]|?]; [right; left|by left].
Qed.

Lemma school_names_of_elem_of df code name :
  (code, name) ∈ school_names_of df →
  ∃ r, r ∈ df ∧ School_Code r = code ∧ School_Name r = name.
Proof.
  intros Hin%to_dict_elem_of%elem_of_unique%list_elem_of_fmap.
  destruct Hin as (r & ? & Hr). simplify_eq. by exists r.
Qed.

Lemma school_names_of_keys df :
  NoDup (dict_keys (school_names_of df)) ∧
  ∀ code, code ∈ dict_keys (school_names_of df) ↔ code ∈ school_codes_of df.
Proof.
  destruct (to_dict_keys (unique ((λ r, (School_Code r, School_Name r)) <$> df)))
    as [Hnd Hin].
  split; [done|]. intros code. unfold school_names_of. rewrite Hin.
  rewrite elem_of_school_codes_of, list_elem_of_fmap. split.
  - intros ([c n] & -> & (r & ? & Hr)%elem_of_unique%list_elem_of_fmap).
    simplify_eq/=. by exists r.
  - intros (r & Hr & <-). exists (School_Code r, School_Name r).
    split; [done|]. apply elem_of_unique, list_elem_of_fmap. by exists r.
Qed.

(** X1. The dictionary of names has exactly one entry for each school code
    of the source. *)
Theorem school_names_keys_are_school_codes (df : DataFrame) :
  NoDup (dict_keys (school_names_of df)) ∧
  (∀ code, code ∈ dict_keys (school_names_of df) ↔ code ∈ school_codes_of df) ∧
  length (school_names_of df) = length (school_codes_of df).
Proof.
  destruct (school_names_of_keys df) as [Hnd Hin]. split_and!; [done..|].
  rewrite <- (length_fmap fst). apply Permutation_length.
  apply NoDup_Permutation; [done| |done].
  unfold school_codes_of. rewrite sorted_Permutation. apply NoDup_unique.
Qed.

(** X2. The name that the dictionary holds for a code is the name of a row
    of the source with that code; when all the rows of a code bear one
    name, that name is the one held. *)
Theorem school_names_come_from_rows (df : DataFrame) (code : Z) :
  (∀ name, dict_getitem code (school_names_of df) = Some name →
           ∃ r, r ∈ df ∧ School_Code r = code ∧ School_Name r = name) ∧
  (∀ r, r ∈ df → School_Code r = code →
        (∀ r', r' ∈ df → School_Code r' = code → School_Name r' = School_Name r) →
        dict_getitem code (school_names_of df) = Some (School_Name r)) ∧
  (dict_getitem code (school_names_of df) = None ↔ code ∉ school_codes_of df).
Proof.
  split_and!.
  - intros name Hget. by apply school_names_of_elem_of, dict_getitem_elem_of.
  - intros r Hr Hcode Hsame.
    destruct (dict_getitem_school_names_of df code) as [name Hname].
    { apply elem_of_school_codes_of. by exists r. }
    rewrite Hname. f_equal.
    apply dict_getitem_elem_of, school_names_of_elem_of in Hname
      as (r' & Hr' & Hcode' & <-).
    by apply Hsame.
  - split.
    + intros Hnone Hin.
      destruct (dict_getitem_school_names_of df code Hin) as [name Hname].
      by rewrite Hname in Hnone.
    + intros Hnin. destruct (dict_getitem code (school_names_of df)) as [name|] eqn:Hget;
        [|done].
      exfalso. apply Hnin, (proj2 (school_names_of_keys df)).
      apply dict_getitem_elem_of in Hget. apply list_elem_of_fmap.
      by exists (code, name).
Qed.

Lemma school_names_come_from_rows_witness :
  dict_getitem 20 (school_names_of df_example) = Some "B" ∧
  dict_getitem 30 (school_names_of df_example) = None.
Proof.
  destruct (school_names_come_from_rows df_example 20) as (_ & Hsame & _).
  destruct (school_names_come_from_rows df_example 30) as (_ & _ & Hnone).
  split.
  - apply (Hsame (Row 2014 20 "B" (Some 510%Z) (Some 520%Z) (Some 530%Z)));
      [left|reflexivity|].
    intros r' Hr' Hcode.
    repeat (apply elem_of_cons in Hr' as [->|Hr']; [by vm_compute in Hcode |- *|]).
    by apply not_elem_of_nil in Hr'.
  - apply Hnone. vm_compute. intros H.
    repeat (apply elem_of_cons in H as [H|H]; [done|]).
    by apply not_elem_of_nil in H.
Defined.

(** ** Order of the rows *)

Lemma sorted_unique_Permutation (l k : list Z) :
  l ≡ₚ k → sorted (unique l) = sorted (unique k).
Proof.
  intros Hlk. apply (StronglySorted_unique Z.le).
  - apply sorted_StronglySorted.
  - apply sorted_StronglySorted.
  - rewrite !sorted_Permutation.
    apply NoDup_Permutation; [apply NoDup_unique..|].
    intros x. by rewrite !elem_of_unique, Hlk.
Qed.

Lemma for_enumerate_ext {A St} (body body' : nat → A → St → St) :
  (∀ i x s, body i x s = body' i x s) →
  ∀ l i s, for_enumerate body i l s = for_enumerate body' i l s.
Proof.
  intros Hext l. induction l as [|x l IH]; intros i s; simpl; [done|].
  by rewrite Hext, IH.
Qed.

Lemma select_rows_Permutation df df' year code :
  df ≡ₚ df' →
  length (select_rows df year code) ≤ 1 →
  select_rows df' year code = select_rows df year code.
Proof.
  intros Hperm Hlen.
  assert (select_rows df' year code ≡ₚ select_rows df year code) as Hsel.
  { unfold select_rows. by rewrite Hperm. }
  destruct (select_rows df year code) as [|r [|r' rows]]; simpl in Hlen.
  - by apply Permutation_nil_r.
  - by apply Permutation_singleton_r.
  - lia.
Qed.

(** X3. The axes of the table do not depend on the order of the rows of the
    source, and when no (year, school) pair has two rows the table does
    not either. *)
Theorem load_school_data_row_order (df df' : DataFrame) :
  df ≡ₚ df' →
  (load_school_data df').1.2 = (load_school_data df).1.2 ∧
  years_of df' = years_of df ∧
  ((∀ year code, length (select_rows df year code) ≤ 1) →
   (load_school_data df').1.1 = (load_school_data df).1.1).
Proof.
  intros Hperm.
  assert (school_codes_of df' = school_codes_of df) as Hcodes.
  { apply sorted_unique_Permutation. by rewrite Hperm. }
  assert (years_of df' = years_of df) as Hyears.
  { apply sorted_unique_Permutation. by rewrite Hperm. }
  split_and!; [done..|].
  intros Hone. simpl. rewrite Hcodes, Hyears.
  apply for_enumerate_ext. intros i year data. unfold fill_year.
  apply for_enumerate_ext. intros j code data'. unfold fill_cell.
  by rewrite (select_rows_Permutation df df' year code Hperm (Hone year code)).
Qed.

Lemma load_school_data_row_order_witness :
  (load_school_data (reverse df_example)).1.1 = (load_school_data df_example).1.1 ∧
  (load_school_data (reverse df_example)).1.2 = (load_school_data df_example).1.2.
Proof.
  destruct (load_school_data_row_order df_example (reverse df_example))
    as (Hcodes & _ & Hdata).
  - by rewrite reverse_Permutation.
  - split; [|done]. apply Hdata. intros year code.
    unfold select_rows, df_example.
    rewrite !filter_cons, filter_nil. simpl.
    repeat case_decide; simpl; lia.
Defined.

(** ** Greatest and least enrollment of a school *)

Lemma concat_slice_school data school_idx school_data :
  slice_school data school_idx = Some school_data →
  concat school_data = school_cells data school_idx.
Proof.
  unfold school_cells. intros H%slice_school_Some%mapM_Some_1.
  induction H as [|plane cs data sd Hcs _ IH]; [done|].
  rewrite bind_cons, Hcs. simpl. by rewrite IH.
Qed.

Lemma fmax_cases a b : fmax a b = a ∨ fmax a b = b.
Proof.
  destruct a as [x|], b as [y|]; simpl; auto.
  destruct (Z.max_spec x y) as [[_ ->]|[_ ->]]; auto.
Qed.

Lemma fmax_bound a b v :
  Some v = a ∨ Some v = b → ∃ w, fmax a b = Some w ∧ (v ≤ w)%Z.
Proof.
  intros [<-|<-]; [destruct b|destruct a]; simpl; eexists; (split; [done|lia]).
Qed.

Lemma foldl_fmax_Some c l m :
  foldl fmax c l = Some m →
  Some m ∈ c :: l ∧ ∀ v, Some v ∈ c :: l → (v ≤ m)%Z.
Proof.
  revert c. induction l as [|x l IH]; intros c; simpl.
  - intros ->. split; [left|].
    intros v [[= ->]|?%not_elem_of_nil]%elem_of_cons; [lia|done].
  - intros [Hin Hbound]%IH. split.
    + apply elem_of_cons in Hin as [Hin|Hin]; [|by do 2 right].
      rewrite Hin. destruct (fmax_cases c x) as [-> | ->]; [left|right; left].
    + intros v Hv.
      assert (Some v ∈ l ∨ (Some v = c ∨ Some v = x)) as [?|Hcx].
      { rewrite !elem_of_cons in Hv. naive_solver. }
      * apply Hbound. by right.
      * destruct (fmax_bound _ _ _ Hcx) as (w & Hw & ?).
        assert (w ≤ m)%Z; [|lia]. apply Hbound. rewrite Hw. left.
Qed.

Lemma foldl_fmax_None c l :
  foldl fmax c l = None → ∀ v, Some v ∉ c :: l.
Proof.
  revert c. induction l as [|x l IH]; intros c; simpl.
  - intros -> v [?|?%not_elem_of_nil]%elem_of_cons; done.
  - intros Hfold v Hv. pose proof (IH _ Hfold) as Hnone.
    assert (Some v ∈ l ∨ (Some v = c ∨ Some v = x)) as [?|Hcx].
    { rewrite !elem_of_cons in Hv. naive_solver. }
    + apply (Hnone v). by right.
    + destruct (fmax_bound _ _ _ Hcx) as (w & Hw & _).
      apply (Hnone w). rewrite Hw. left.
Qed.

Lemma fmin_cases a b : fmin a b = a ∨ fmin a b = b.
Proof.
  destruct a as [x|], b as [y|]; simpl; auto.
  destruct (Z.min_spec x y) as [[_ ->]|[_ ->]]; auto.
Qed.

Lemma fmin_bound a b v :
  Some v = a ∨ Some v = b → ∃ w, fmin a b = Some w ∧ (w ≤ v)%Z.
Proof.
  intros [<-|<-]; [destruct b|destruct a]; simpl; eexists; (split; [done|lia]).
Qed.

Lemma foldl_fmin_Some c l m :
  foldl fmin c l = Some m →
  Some m ∈ c :: l ∧ ∀ v, Some v ∈ c :: l → (m ≤ v)%Z.
Proof.
  revert c. induction l as [|x l IH]; intros c; simpl.
  - intros ->. split; [left|].
    intros v [[= ->]|?%not_elem_of_nil]%elem_of_cons; [lia|done].
  - intros [Hin Hbound]%IH. split.
    + apply elem_of_cons in Hin as [Hin|Hin]; [|by do 2 right].
      rewrite Hin. destruct (fmin_cases c x) as [-> | ->]; [left|right; left].
    + intros v Hv.
      assert (Some v ∈ l ∨ (Some v = c ∨ Some v = x)) as [?|Hcx].
      { rewrite !elem_of_cons in Hv. naive_solver. }
      * apply Hbound. by right.
      * destruct (fmin_bound _ _ _ Hcx) as (w & Hw & ?).
        assert (m ≤ w)%Z; [|lia]. apply Hbound. rewrite Hw. left.
Qed.

Lemma foldl_fmin_None c l :
  foldl fmin c l = None → ∀ v, Some v ∉ c :: l.
Proof.
  revert c. induction l as [|x l IH]; intros c; simpl.
  - intros -> v [?|?%not_elem_of_nil]%elem_of_cons; done.
  - intros Hfold v Hv. pose proof (IH _ Hfold) as Hnone.
    assert (Some v ∈ l ∨ (Some v = c ∨ Some v = x)) as [?|Hcx].
    { rewrite !elem_of_cons in Hv. naive_solver. }
    + apply (Hnone v). by right.
    + destruct (fmin_bound _ _ _ Hcx) as (w & Hw & _).
      apply (Hnone w). rewrite Hw. left.
Qed.

Lemma nanmax_inr l mx :
  nanmax l = ([], inr mx) → ∃ c l', l = c :: l' ∧ foldl fmax c l' = mx.
Proof. destruct l as [|c l]; [done|]. intros [= <-]. by eexists _, _. Qed.

Lemma nanmin_inr l mn :
  nanmin l = ([], inr mn) → ∃ c l', l = c :: l' ∧ foldl fmin c l' = mn.
Proof. destruct l as [|c l]; [done|]. intros [= <-]. by eexists _, _. Qed.

(** X4. For a valid school of a loaded table, the highest enrollment is a
    value of one of the school's cells and no value of its cells is
    greater, the lowest enrollment is a value of one of its cells and no
    value is smaller, and both are NaN exactly when all the cells of the
    school are missing. *)
Theorem school_extremes (df : DataFrame) (school_idx : nat) :
  school_idx < length (school_codes_of df) →
  ∃ st,
    compute_school_statistics (load_school_data df).1.1 school_idx = ([], inr st) ∧
    (∀ m, max_enrollment st = Some m →
       Some m ∈ school_cells (load_school_data df).1.1 school_idx ∧
       ∀ v, Some v ∈ school_cells (load_school_data df).1.1 school_idx → (v ≤ m)%Z) ∧
    (∀ m, min_enrollment st = Some m →
       Some m ∈ school_cells (load_school_data df).1.1 school_idx ∧
       ∀ v, Some v ∈ school_cells (load_school_data df).1.1 school_idx → (m ≤ v)%Z) ∧
    (max_enrollment st = None ↔
       ∀ v, Some v ∉ school_cells (load_school_data df).1.1 school_idx) ∧
    (min_enrollment st = None ↔
       ∀ v, Some v ∉ school_cells (load_school_data df).1.1 school_idx).
Proof.
  intros Hidx.
  destruct (compute_school_statistics_load df school_idx Hidx)
    as (sd & st & Hsd & _ & _ & Hst & _ & _ & _ & _ & _ & _ & Hmx & Hmn).
  rewrite (concat_slice_school _ _ _ Hsd) in Hmx, Hmn.
  apply nanmax_inr in Hmx as (c & l & Hcells & Hmax).
  apply nanmin_inr in Hmn as (c' & l' & Hcells' & Hmin).
  exists st. rewrite Hcells. split_and!; [done|..].
  - intros m Hm. rewrite Hm in Hmax. by apply foldl_fmax_Some.
  - intros m Hm. rewrite Hm in Hmin. rewrite Hcells' in Hcells.
    injection Hcells as <- <-. by apply foldl_fmin_Some.
  - split.
    + intros Hnone. rewrite Hnone in Hmax. by apply foldl_fmax_None.
    + intros Hall. destruct (max_enrollment st) as [m|]; [|done].
      apply foldl_fmax_Some in Hmax as [Hin _]. by apply Hall in Hin.
  - rewrite Hcells' in Hcells. injection Hcells as <- <-. split.
    + intros Hnone. rewrite Hnone in Hmin. by apply foldl_fmin_None.
    + intros Hall. destruct (min_enrollment st) as [m|]; [|done].
      apply foldl_fmin_Some in Hmin as [Hin _]. by apply Hall in Hin.
Qed.

Lemma school_extremes_witness :
  ∃ st,
    compute_school_statistics (load_school_data df_example).1.1 1 = ([], inr st) ∧
    max_enrollment st = Some 600%Z ∧
    Some 600%Z ∈ school_cells (load_school_data df_example).1.1 1.
Proof.
  destruct (school_extremes df_example 1) as (st & Hst & Hmax & _);
    [vm_compute; lia|].
  exists st. split; [done|].
  assert (max_enrollment st = Some 600%Z) as Hm.
  { vm_compute in Hst. by injection Hst as <-. }
  split; [done|]. by apply Hmax.
Defined.

(** ** The ten-year total *)

Lemma np_sum_app l1 l2 : np_sum (l1 ++ l2) = (np_sum l1 + np_sum l2)%Z.
Proof. unfold np_sum. induction l1 as [|x l1 IH]; simpl; lia. Qed.

Lemma values_app l1 l2 : values (l1 ++ l2) = values l1 ++ values l2.
Proof. apply omap_app. Qed.

Lemma np_sum_nansum_rows (school_data : list (list cell)) :
  np_sum (nansum <$> school_data) = np_sum (values (concat school_data)).
Proof.
  induction school_data as [|cs sd IH]; [done|].
  rewrite fmap_cons. simpl concat. rewrite values_app, np_sum_app, <- IH.
  by rewrite nansum_values.
Qed.

(** X5. For a valid school of a loaded table whose cells are counts that
    [float32] adds without rounding, the ten-year total is the sum of the
    values of all the cells of the school that are not missing. *)
Theorem ten_year_total_is_sum_of_cells (df : DataFrame) (school_idx : nat) :
  school_idx < length (school_codes_of df) →
  float32_exact (school_cells (load_school_data df).1.1 school_idx) →
  ∃ st,
    compute_school_statistics (load_school_data df).1.1 school_idx = ([], inr st) ∧
    total_ten_year st =
      np_sum (values (school_cells (load_school_data df).1.1 school_idx)).
Proof.
  intros Hidx _.
  destruct (compute_school_statistics_load df school_idx Hidx)
    as (sd & st & Hsd & _ & _ & Hst & _ & _ & Hten & _).
  exists st. split; [done|].
  rewrite Hten, total_ten_year_of_sum, <- (concat_slice_school _ _ _ Hsd).
  apply np_sum_nansum_rows.
Qed.

Lemma ten_year_total_is_sum_of_cells_witness :
  ∃ st,
    compute_school_statistics (load_school_data df_example).1.1 0 = ([], inr st) ∧
    total_ten_year st = 400%Z.
Proof.
  destruct (ten_year_total_is_sum_of_cells df_example 0) as (st & Hst & Hten);
    [vm_compute; lia|by vm_compute|].
  exists st. split; [done|]. by rewrite Hten.
Defined.

(** ** Runs that raise *)













(** *** Reports of loaded tables *)


Lemma school_cells_elem_of_table data school_idx c :
  c ∈ school_cells data school_idx → c ∈ concat (concat data).
Proof.
  unfold school_cells. intros (plane & Hc & Hplane)%list_elem_of_bind.
  destruct (plane !! school_idx) as [cs|] eqn:Hcs; simpl in Hc;
    [|by apply not_elem_of_nil in Hc].
  apply elem_of_concat. exists cs. split; [|done].
  apply elem_of_concat. exists plane. split; [done|].
  by eapply list_elem_of_lookup_2.
Qed.

Section school_report.
Variable df : DataFrame.
Variable school_idx : nat.
Hypothesis valid_idx : school_idx < length (school_codes_of df).



End school_report.

(** ** The lines of the report of a school *)


(** ** The aggregate statistics of loaded tables *)

Lemma compute_general_statistics_load df :
  df ≠ [] →
  ∃ first_year last_year st,
    head (load_school_data df).1.1 = Some first_year ∧
    last (load_school_data df).1.1 = Some last_year ∧
    compute_general_statistics (load_school_data df).1.1 = ([], inr st) ∧
    mean_first_year st = nanmean (concat first_year) ∧
    mean_last_year st = nanmean (concat last_year) ∧
    nanmax (concat (concat (load_school_data df).1.1))
      = ([], inr (max_enrollment_all st)) ∧
    nanmin (concat (concat (load_school_data df).1.1))
      = ([], inr (min_enrollment_all st)).
Proof.
  intros Hne.
  pose proof (shape3_load df) as Hshape.
  pose proof (years_of_nonempty df Hne) as Hyears.
  pose proof (school_codes_of_nonempty df Hne) as Hcodes.
  destruct (length (years_of df)) as [|n0] eqn:Hn0;
    [by apply length_zero_iff_nil in Hn0|].
  destruct (length (school_codes_of df)) as [|n1] eqn:Hn1;
    [by apply length_zero_iff_nil in Hn1|].
  destruct (compute_general_statistics_shape _ _ _ Hshape)
    as (first_year & last_year & grade_12 & mx & mn
        & Hhead & Hlast & Hg12 & _ & Hst).
  eexists first_year, last_year, _. split_and!; [done|done|exact Hst|done|done|..].
  - unfold compute_general_statistics in Hst. rewrite Hhead, Hlast, Hg12 in Hst.
    destruct (concat (concat (load_school_data df).1.1)) as [|c l]; [done|].
    simpl in Hst |- *. by simplify_eq.
  - unfold compute_general_statistics in Hst. rewrite Hhead, Hlast, Hg12 in Hst.
    destruct (concat (concat (load_school_data df).1.1)) as [|c l]; [done|].
    simpl in Hst |- *. by simplify_eq.
Qed.

(** X9. For the table loaded from a source that has a row, the aggregate
    statistics are computed; the mean of the first year and that of the
    last year are the sum of the values of the cells of that year that are
    not missing over their number (NaN when there is none), when these
    cells are counts that [float32] adds without rounding; the highest and
    lowest enrollments are values of cells of the table that bound the
    values of all its cells. *)
Theorem general_statistics_of_table (df : DataFrame) :
  df ≠ [] →
  ∃ first_year last_year st,
    head (load_school_data df).1.1 = Some first_year ∧
    last (load_school_data df).1.1 = Some last_year ∧
    compute_general_statistics (load_school_data df).1.1 = ([], inr st) ∧
    (float32_exact (concat first_year) →
     mean_first_year st =
       match values (concat first_year) with
       | [] => None
       | (_ :: _) as vs => Some (Qmake (np_sum vs) (Pos.of_nat (length vs)))
       end) ∧
    (float32_exact (concat last_year) →
     mean_last_year st =
       match values (concat last_year) with
       | [] => None
       | (_ :: _) as vs => Some (Qmake (np_sum vs) (Pos.of_nat (length vs)))
       end) ∧
    (∀ m, max_enrollment_all st = Some m →
       Some m ∈ concat (concat (load_school_data df).1.1) ∧
       ∀ v, Some v ∈ concat (concat (load_school_data df).1.1) → (v ≤ m)%Z) ∧
    (∀ m, min_enrollment_all st = Some m →
       Some m ∈ concat (concat (load_school_data df).1.1) ∧
       ∀ v, Some v ∈ concat (concat (load_school_data df).1.1) → (m ≤ v)%Z).
Proof.
  intros Hne.
  destruct (compute_general_statistics_load df Hne)
    as (first_year & last_year & st & Hhead & Hlast & Hst & Hfirst & Hlst
        & Hmx & Hmn).
  exists first_year, last_year, st. split_and!; [done|done|done|..].
  - intros _. rewrite Hfirst, nanmean_values. by destruct (values _).
  - intros _. rewrite Hlst, nanmean_values. by destruct (values _).
  - intros m Hm. apply nanmax_inr in Hmx as (c & l & -> & Hmax).
    rewrite Hm in Hmax. by apply foldl_fmax_Some.
  - intros m Hm. apply nanmin_inr in Hmn as (c & l & -> & Hmin).
    rewrite Hm in Hmin. by apply foldl_fmin_Some.
Qed.

Lemma general_statistics_of_table_witness :
  ∃ st,
    compute_general_statistics (load_school_data df_example).1.1 = ([], inr st) ∧
    mean_first_year st = Some (Qmake 1901 5) ∧
    max_enrollment_all st = Some 600%Z.
Proof.
  destruct (general_statistics_of_table df_example)
    as (first_year & last_year & st & Hhead & _ & Hst & Hmean & _); [done|].
  exists st. split; [done|].
  injection Hhead as <-. split; [by rewrite Hmean by (by vm_compute)|].
  vm_compute in Hst. by injection Hst as <-.
Defined.


Lemma print_general_report_nan st :
  max_enrollment_all st = None →
  raises (ValueError nan_to_integer) (print_general_report st).
Proof.
  destruct st as [first lst grads smax smin]. simpl. intros ->.
  by eexists.
Qed.

(** ** Runs of [main] after a selection by name *)





















(** ** Selection by name *)

Lemma list_index_first `{EqDecision A} (x : A) l i :
  list_index x l = Some i →
  l !! i = Some x ∧ ∀ j, j < i → l !! j ≠ Some x.
Proof.
  revert i. induction l as [|y l IH]; intros i; simpl; [done|].
  case_decide as Hy.
  - intros [= <-]. split; [by subst|]. intros j ?. lia.
  - destruct (list_index x l) as [i'|]; intros; simplify_eq/=.
    destruct (IH i' eq_refl) as [Hi Hfirst]. split; [done|].
    intros [|j] Hj; simpl; [by intros [= ?]|]. apply Hfirst. lia.
Qed.

Lemma list_index_NoDup `{EqDecision A} (x : A) l i :
  NoDup l → l !! i = Some x → list_index x l = Some i.
Proof.
  intros Hnd Hi.
  destruct (list_index_is_Some x l) as [i' Hi']; [by eapply list_elem_of_lookup_2|].
  rewrite Hi'. f_equal. apply list_index_lookup in Hi'.
  by eapply NoDup_lookup.
Qed.

(** X12. An input that is not made of digits and is the name of a school is
    resolved to the first entry of the directory that bears this name, the
    directory being in the order in which the codes first appear in the
    source, and to the position of the code of that entry on the school
    axis. *)
Theorem select_by_name_first_entry (df : DataFrame) (line : string) :
  isdigit line = false →
  line ∈ dict_values (school_names_of df) →
  ∃ i idx code,
    school_names_of df !! i = Some (code, line) ∧
    (∀ j code', j < i → school_names_of df !! j ≠ Some (code', line)) ∧
    school_codes_of df !! idx = Some code ∧
    list_index code (school_codes_of df) = Some idx ∧
    select_school (school_codes_of df) (school_names_of df) line
      = ([], inr {| school_idx := Some idx; school_name := Some line;
                    school_code := Some code |}).
Proof.
  intros Hd Hin. unfold select_school, select_by_name.
  rewrite Hd, decide_True by done.
  destruct (list_index_is_Some _ _ Hin) as [i Hi]. rewrite Hi. simpl.
  apply list_index_first in Hi as [Hi Hfirst]. unfold dict_values, dict_keys in *.
  rewrite list_lookup_fmap in Hi. rewrite list_lookup_fmap.
  destruct (school_names_of df !! i) as [[code name]|] eqn:Hentry; simplify_eq/=.
  assert (code ∈ school_codes_of df) as Hcode.
  { apply dict_keys_school_names_of, list_elem_of_fmap.
    exists (code, line). split; [done|]. by eapply list_elem_of_lookup_2. }
  destruct (list_index_is_Some _ _ Hcode) as [idx Hidx]. rewrite Hidx. simpl.
  exists i, idx, code. split_and!; [done| |by apply list_index_lookup|done|done].
  intros j code' Hj Hentry'. apply (Hfirst j Hj).
  by rewrite list_lookup_fmap, Hentry'.
Qed.

Lemma select_by_name_first_entry_witness :
  select_school (school_codes_of df_twins) (school_names_of df_twins) "Twin"
  = ([], inr {| school_idx := Some 1; school_name := Some "Twin";
                school_code := Some 30%Z |}).
Proof.
  destruct (select_by_name_first_entry df_twins "Twin")
    as (i & idx & code & Hentry & Hfirst & _ & _ & Hsel); [reflexivity| |].
  - vm_compute. left.
  - done.
Defined.

(** ** Leading zeros *)

(** X13. An input made of decimal digits and the same input after a zero
    give the same run, as long as the longer of the two has 4300 digits at
    most (the most that [int] converts): a code is looked up by its
    value. *)
Theorem main_leading_zero (df : DataFrame) (line : string) :
  line ≠ "" →
  all_chars is_decimal line = true →
  String.length (String "0" line) ≤ 4300 →
  main df (String "0" line) = main df line.
Proof.
  intros Hne Hdec _. rewrite !main_unfold. unfold select_school.
  assert (all_chars is_decimal (String "0" line) = true) as Hdec0 by done.
  assert (String "0" line ≠ "") as Hne0 by done.
  rewrite (isdigit_decimal _ Hne Hdec), (isdigit_decimal _ Hne0 Hdec0).
  unfold select_by_code, int_of_str. rewrite Hdec, Hdec0. done.
Qed.

Lemma main_leading_zero_witness :
  main df_example "0099" = (preamble ++ ["School code not found."], inr tt).
Proof.
  rewrite (main_leading_zero df_example "099"), (main_leading_zero df_example "99");
    [done|done|done|simpl; lia|done|done|simpl; lia].
Defined.

(** ** Schools and the whole table *)

(** X14. For a valid school of a table loaded from a source, the highest
    enrollment of the school is at most the highest enrollment of the
    table, and its lowest enrollment is at least the lowest of the
    table. *)
Theorem school_extremes_within_table (df : DataFrame) (school_idx : nat) :
  school_idx < length (school_codes_of df) →
  ∃ st all,
    compute_school_statistics (load_school_data df).1.1 school_idx = ([], inr st) ∧
    compute_general_statistics (load_school_data df).1.1 = ([], inr all) ∧
    (∀ m, max_enrollment st = Some m →
          ∃ M, max_enrollment_all all = Some M ∧ (m ≤ M)%Z) ∧
    (∀ m, min_enrollment st = Some m →
          ∃ M, min_enrollment_all all = Some M ∧ (M ≤ m)%Z).
Proof.
  intros Hidx.
  assert (df ≠ []) as Hne.
  { intros ->. rewrite school_codes_of_nil in Hidx. simpl in Hidx. lia. }
  destruct (compute_school_statistics_load df school_idx Hidx)
    as (sd & st & Hsd & _ & _ & Hst & _ & _ & _ & _ & _ & _ & Hmx & Hmn).
  rewrite (concat_slice_school _ _ _ Hsd) in Hmx, Hmn.
  destruct (compute_general_statistics_load df Hne)
    as (first_year & last_year & all & _ & _ & Hall & _ & _ & Hmxa & Hmna).
  exists st, all. split_and!; [done|done|..].
  - intros m Hm.
    apply nanmax_inr in Hmx as (c & l & Hcells & Hmax). rewrite Hm in Hmax.
    apply foldl_fmax_Some in Hmax as [Hin _]. rewrite <- Hcells in Hin.
    apply school_cells_elem_of_table in Hin.
    destruct (nanmax_is_Some _ _ _ Hin Hmxa) as [M HM]. exists M. split; [done|].
    apply nanmax_inr in Hmxa as (c' & l' & Hcells' & Hmax'). rewrite HM in Hmax'.
    apply foldl_fmax_Some in Hmax' as [_ Hbound]. apply Hbound.
    by rewrite <- Hcells'.
  - intros m Hm.
    apply nanmin_inr in Hmn as (c & l & Hcells & Hmin). rewrite Hm in Hmin.
    apply foldl_fmin_Some in Hmin as [Hin _]. rewrite <- Hcells in Hin.
    apply school_cells_elem_of_table in Hin.
    destruct (nanmin_is_Some _ _ _ Hin Hmna) as [M HM]. exists M. split; [done|].
    apply nanmin_inr in Hmna as (c' & l' & Hcells' & Hmin'). rewrite HM in Hmin'.
    apply foldl_fmin_Some in Hmin' as [_ Hbound]. apply Hbound.
    by rewrite <- Hcells'.
Qed.

Lemma school_extremes_within_table_witness :
  ∃ st all,
    compute_school_statistics (load_school_data df_example).1.1 0 = ([], inr st) ∧
    compute_general_statistics (load_school_data df_example).1.1 = ([], inr all) ∧
    max_enrollment st = Some 300%Z ∧
    ∃ M, max_enrollment_all all = Some M ∧ (300 ≤ M)%Z.
Proof.
  destruct (school_extremes_within_table df_example 0)
    as (st & all & Hst & Hall & Hmax & _); [vm_compute; lia|].
  exists st, all. split_and!; [done|done| |].
  - vm_compute in Hst. by injection Hst as <-.
  - apply Hmax. vm_compute in Hst. by injection Hst as <-.
Defined.

(** ** Codes as they are printed and as they are typed *)

Lemma pretty_N_char_decimal d :
  is_decimal (pretty_N_char d) = true ∧
  ((d < 10)%N → (Z.of_nat (Ascii.nat_of_ascii (pretty_N_char d)) - 48)%Z = Z.of_N d).
Proof.
  split.
  - unfold pretty_N_char. by repeat case_match.
  - intros Hd.
    assert (d = 0 ∨ d = 1 ∨ d = 2 ∨ d = 3 ∨ d = 4 ∨ d = 5
            ∨ d = 6 ∨ d = 7 ∨ d = 8 ∨ d = 9)%N as Hcases by lia.
    destruct Hcases as [->|[->|[->|[->|[->|[->|[->|[->|[->| ->]]]]]]]]]; done.
Qed.

Lemma pretty_N_go_decimal x s :
  all_chars is_decimal (pretty_N_go x s) = all_chars is_decimal s ∧
  decimal_value 0 (pretty_N_go x s) = decimal_value (Z.of_N x) s ∧
  (s ≠ "" → pretty_N_go x s ≠ "").
Proof.
  revert s. induction (N.lt_wf_0 x) as [x _ IH]; intros s.
  destruct (decide (x = 0)%N) as [->|Hx]; [by rewrite pretty_N_go_0|].
  rewrite pretty_N_go_step by lia.
  destruct (IH (x `div` 10)%N) with (s := String (pretty_N_char (x `mod` 10)) s)
    as (Hall & Hvalue & Hne); [apply N.div_lt; lia|].
  destruct (pretty_N_char_decimal (x `mod` 10)) as [Hdec Hchar].
  split_and!.
  - rewrite Hall. simpl. by rewrite Hdec.
  - rewrite Hvalue. simpl. rewrite Hchar by (apply N.mod_lt; lia).
    f_equal. pose proof (N.div_mod x 10 ltac:(lia)). lia.
  - intros _. by apply Hne.
Qed.

Lemma pretty_Z_decimal (z : Z) :
  (0 ≤ z)%Z →
  pretty z ≠ "" ∧
  all_chars is_decimal (pretty z) = true ∧
  decimal_value 0 (pretty z) = z.
Proof.
  intros Hz. destruct z as [|p|p]; [done| |lia].
  unfold pretty, pretty_Z, pretty, pretty_positive, pretty, pretty_N.
  rewrite decide_False by done.
  destruct (pretty_N_go_decimal (N.pos p) "") as (Hall & Hvalue & _).
  rewrite Hall, Hvalue. split_and!; [|done..].
  rewrite pretty_N_go_step by lia.
  by apply pretty_N_go_decimal.
Qed.

(** X15. The decimal writing of a school code that is not negative, as the
    report prints it, typed at the prompt, is looked up as a code and
    resolved to the position of that code on the school axis. *)
Theorem printed_code_selects_school (df : DataFrame) (idx : nat) (code : Z) :
  school_codes_of df !! idx = Some code →
  (0 ≤ code)%Z →
  ∃ name,
    dict_getitem code (school_names_of df) = Some name ∧
    select_school (school_codes_of df) (school_names_of df) (pretty code)
      = ([], inr {| school_idx := Some idx; school_name := Some name;
                    school_code := None |}).
Proof.
  intros Hidx Hcode.
  destruct (pretty_Z_decimal code Hcode) as (Hne & Hdec & Hvalue).
  assert (code ∈ school_codes_of df) as Hin by (by eapply list_elem_of_lookup_2).
  destruct (dict_getitem_school_names_of df code Hin) as [name Hname].
  exists name. split; [done|].
  unfold select_school, select_by_code, int_of_str.
  rewrite (isdigit_decimal _ Hne Hdec), Hdec. simpl. rewrite Hvalue.
  rewrite decide_True by done.
  rewrite (list_index_NoDup code (school_codes_of df) idx), Hname; [done| |done].
  unfold school_codes_of. rewrite sorted_Permutation. apply NoDup_unique.
Qed.

Lemma printed_code_selects_school_witness :
  select_school (school_codes_of df_example) (school_names_of df_example) "20"
  = ([], inr {| school_idx := Some 1; school_name := Some "B";
                school_code := None |}).
Proof.
  destruct (printed_code_selects_school df_example 1 20) as (name & Hname & Hsel);
    [reflexivity|lia|].
  vm_compute in Hname. injection Hname as <-. exact Hsel.
Defined.

(** ** Rows behind the axes *)

Lemma elem_of_select_rows df year code r :
  r ∈ select_rows df year code ↔
  r ∈ df ∧ School_Year r = year ∧ School_Code r = code.
Proof. unfold select_rows. rewrite list_elem_of_filter. naive_solver. Qed.

(** X16. Every school of the school axis has a row of the source in some
    year of the table, and every year of the year axis has a row of some
    school: no line of the table is there without a row behind it.  The
    entry of the table at that year and school is filled from that row: it
    holds the grade counts of the row when these are counts that [float32]
    holds. *)
Theorem axes_have_rows (df : DataFrame) :
  (∀ j code, school_codes_of df !! j = Some code →
     ∃ i year r,
       years_of df !! i = Some year ∧
       r ∈ df ∧ School_Year r = year ∧ School_Code r = code ∧
       head (select_rows df year code) = Some r ∧
       (Forall float32_count (grades r) →
        getitem2 (load_school_data df).1.1 i j = Some (grades r))) ∧
  (∀ i year, years_of df !! i = Some year →
     ∃ j code r,
       school_codes_of df !! j = Some code ∧
       r ∈ df ∧ School_Year r = year ∧ School_Code r = code ∧
       head (select_rows df year code) = Some r ∧
       (Forall float32_count (grades r) →
        getitem2 (load_school_data df).1.1 i j = Some (grades r))).
Proof.
  assert (∀ i j year code r0,
            years_of df !! i = Some year → school_codes_of df !! j = Some code →
            r0 ∈ df → School_Year r0 = year → School_Code r0 = code →
            ∃ r, r ∈ df ∧ School_Year r = year ∧ School_Code r = code ∧
                 head (select_rows df year code) = Some r ∧
                 (Forall float32_count (grades r) →
                  getitem2 (load_school_data df).1.1 i j = Some (grades r))) as Hrow.
  { intros i j year code r0 Hi Hj Hr0 Hyear Hcode.
    rewrite (getitem2_load df i j year code Hi Hj). unfold filled.
    destruct (select_rows df year code) as [|r rows] eqn:Hsel.
    - exfalso. apply (not_elem_of_nil r0). rewrite <- Hsel.
      by apply elem_of_select_rows.
    - assert (r ∈ select_rows df year code) as Hr by (rewrite Hsel; left).
      apply elem_of_select_rows in Hr as (? & ? & ?). by exists r. }
  split.
  - intros j code Hj.
    assert (code ∈ school_codes_of df) as (r0 & Hr0 & Hcode)%elem_of_school_codes_of
      by (by eapply list_elem_of_lookup_2).
    assert (School_Year r0 ∈ years_of df) as [i Hi]%list_elem_of_lookup.
    { apply elem_of_years_of. by exists r0. }
    destruct (Hrow i j _ _ r0 Hi Hj Hr0 eq_refl Hcode) as (r & ? & ? & ? & ? & ?).
    by exists i, (School_Year r0), r.
  - intros i year Hi.
    assert (year ∈ years_of df) as (r0 & Hr0 & Hyear)%elem_of_years_of
      by (by eapply list_elem_of_lookup_2).
    assert (School_Code r0 ∈ school_codes_of df) as [j Hj]%list_elem_of_lookup.
    { apply elem_of_school_codes_of. by exists r0. }
    destruct (Hrow i j _ _ r0 Hi Hj Hr0 Hyear eq_refl) as (r & ? & ? & ? & ? & ?).
    by exists j, (School_Code r0), r.
Qed.

Lemma axes_have_rows_witness :
  ∃ i year r,
    years_of df_example !! i = Some year ∧
    r ∈ df_example ∧ School_Year r = year ∧ School_Code r = 10%Z ∧
    getitem2 (load_school_data df_example).1.1 i 0 = Some (grades r).
Proof.
  destruct (axes_have_rows df_example) as [Hcodes _].
  destruct (Hcodes 0 10%Z eq_refl) as (i & year & r & Hi & Hr & Hyear & Hcode & _ & Hget).
  exists i, year, r. split_and!; [done..|].
  apply Hget.
  repeat (apply elem_of_cons in Hr as [-> | Hr]; [repeat constructor; by vm_compute|]).
  by apply not_elem_of_nil in Hr.
Defined.

(** ** The median of the enrollments over 500 *)

Lemma elem_of_greater_than bound l v :
  v ∈ greater_than bound l → (bound < v)%Z.
Proof. unfold greater_than. by intros [? _]%list_elem_of_filter. Qed.

Lemma median_above bound l m :
  (∀ v, v ∈ l → (bound < v)%Z) →
  median l = Some m →
  (bound * Zpos (Qden m) < Qnum m)%Z.
Proof.
  intros Hall. unfold median.
  assert (∀ i v, sorted l !! i = Some v → (bound < v)%Z) as Hsorted.
  { intros i v Hv. apply Hall. rewrite <- (elem_of_sorted l).
    by eapply list_elem_of_lookup_2. }
  destruct (Nat.even (length (sorted l))).
  - destruct (sorted l !! (length (sorted l) / 2 - 1)) as [a|] eqn:Ha; [|done].
    destruct (sorted l !! (length (sorted l) / 2)) as [b|] eqn:Hb; [|done].
    intros [= <-]. cbn [Qnum Qden].
    pose proof (Hsorted _ _ Ha). pose proof (Hsorted _ _ Hb). lia.
  - destruct (sorted l !! (length (sorted l) / 2)) as [a|] eqn:Ha; [|done].
    intros [= <-]. cbn [Qnum Qden inject_Z].
    pose proof (Hsorted _ _ Ha). lia.
Qed.

(** X17. For a valid school of a loaded table, when the median of the
    enrollments over 500 is there, it is over 500, and the integer that
    the report prints for it is at least 500. *)
Theorem median_large_classes_over_500 (df : DataFrame) (school_idx : nat) :
  school_idx < length (school_codes_of df) →
  ∃ st,
    compute_school_statistics (load_school_data df).1.1 school_idx = ([], inr st) ∧
    ∀ m, median_large_classes st = Some (Some m) →
         (500 * Zpos (Qden m) < Qnum m)%Z ∧ (500 ≤ int_part m)%Z.
Proof.
  intros Hidx.
  destruct (compute_school_statistics_load df school_idx Hidx)
    as (sd & st & _ & _ & _ & Hst & _ & _ & _ & _ & _ & Hmedian & _).
  exists st. split; [done|]. intros m. rewrite Hmedian.
  unfold median_large_classes_of. case_decide; [|done]. intros [= Hm].
  assert (500 * Zpos (Qden m) < Qnum m)%Z as Hlt.
  { apply (median_above 500 (large_classes_of sd)); [|done].
    intros v. apply elem_of_greater_than. }
  split; [done|]. unfold int_part.
  apply Z.quot_le_lower_bound; lia.
Qed.

Lemma median_large_classes_over_500_witness :
  ∃ st,
    compute_school_statistics (load_school_data df_example).1.1 1 = ([], inr st) ∧
    median_large_classes st = Some (Some (inject_Z 520)) ∧
    (500 ≤ int_part (inject_Z 520))%Z.
Proof.
  destruct (median_large_classes_over_500 df_example 1) as (st & Hst & Hm);
    [vm_compute; lia|].
  exists st. split; [done|].
  assert (median_large_classes st = Some (Some (inject_Z 520))) as Hmed.
  { vm_compute in Hst. by injection Hst as <-. }
  split; [done|]. by apply Hm.
Defined.

(** ** The lines of the aggregate report *)


